(** * omoa.py: the mixture-of-agents orchestrator

    A shallow embedding of [src/omoa.py]: the agent with its search-trigger
    protocol, the web augmentation, the orchestrator's turn and its memory
    operations, and the properties of the specification proved on it.

    The collaborators of the module (the completion function, the search
    engine, the page fetcher and extractor, the JSON parser, the ranking of
    the similarity index, the file readers, the text splitter) are the
    fields of one interface, [External]. A call that leaves the process, and
    a request to the similarity index, is recorded in a history; a
    collaborator that talks to the outside world answers as a function of the
    history before the call, so that two calls with equal arguments may
    answer differently.

    A collaborator that the module calls inside a [try] block may raise,
    the index's [clear_documents] among them. The completion function, the
    search engine, and the index where it adds and retrieves, are called
    outside every handler of [get_response]: they are taken to answer, and an
    exception of theirs would leave [get_response] as it came. [print] is
    not modelled. *)

From Stdlib Require Import ZArith Ascii String Floats.
From stdpp Require Import base option list strings gmap pretty.

#[local] Set Warnings "-register-all".
Local Open Scope Z_scope.

(** ** Python strings

    A [string] stands for a Python [str] whose characters are code points
    below 256. *)
Module Py.

(** [p.startswith(prefix)] *)
Definition startswith (s p : string) : bool := String.prefix p s.

(** [sub in s] *)
Fixpoint contains (sub s : string) : bool :=
  String.prefix sub s ||
  match s with
  | EmptyString => false
  | String _ s' => contains sub s'
  end.

Fixpoint drop (n : nat) (s : string) : string :=
  match n, s with
  | O, _ => s
  | S n', String _ s' => drop n' s'
  | S _, EmptyString => EmptyString
  end.

(** [s.partition(sep)] when [sep] occurs in [s]: the text before the first
    occurrence and the text after it. *)
Fixpoint partition (sep s : string) : option (string * string) :=
  if String.prefix sep s then Some (EmptyString, drop (String.length sep) s)
  else match s with
       | EmptyString => None
       | String c s' =>
           match partition sep s' with
           | Some (b, a) => Some (String c b, a)
           | None => None
           end
       end.

(** [s.split(sep, 1)], for a non-empty [sep]. *)
Definition split1 (sep s : string) : list string :=
  match partition sep s with
  | Some (b, a) => [b; a]
  | None => [s]
  end.

(** [s.split(c)] for a one-character separator. *)
Fixpoint split_char (c : ascii) (s : string) : list string :=
  match s with
  | EmptyString => [EmptyString]
  | String a s' =>
      let r := split_char c s' in
      if Ascii.eqb a c then EmptyString :: r
      else match r with
           | h :: t => String a h :: t
           | [] => [String a EmptyString]
           end
  end.

(** [str.isspace] on one character. *)
Definition isspace (c : ascii) : bool :=
  let n := N_of_ascii c in
  ((9 <=? n) && (n <=? 13) || (28 <=? n) && (n <=? 32)
   || (n =? 133) || (n =? 160))%N.

Fixpoint lstrip (s : string) : string :=
  match s with
  | EmptyString => EmptyString
  | String c s' => if isspace c then lstrip s' else s
  end.

Fixpoint rstrip (s : string) : string :=
  match s with
  | EmptyString => EmptyString
  | String c s' =>
      match rstrip s' with
      | EmptyString => if isspace c then EmptyString else String c EmptyString
      | r => String c r
      end
  end.

(** [s.strip()] *)
Definition strip (s : string) : string := rstrip (lstrip s).

(** [c.lower()]: the capital letters below 256 are A-Z and the code points
    192-222 without the multiplication sign 215. *)
Definition lower_char (c : ascii) : ascii :=
  let n := N_of_ascii c in
  if ((65 <=? n) && (n <=? 90)
      || (192 <=? n) && (n <=? 222) && negb (n =? 215))%N
  then ascii_of_N (n + 32) else c.

(** [s.lower()] *)
Fixpoint lower (s : string) : string :=
  match s with
  | EmptyString => EmptyString
  | String c s' => String (lower_char c) (lower s')
  end.

(** [sep.join(l)] *)
Fixpoint join (sep : string) (l : list string) : string :=
  match l with
  | [] => EmptyString
  | [x] => x
  | x :: l' => x +:+ sep +:+ join sep l'
  end.

(** Truth value of a string: [if s:]. *)
Definition truthy (s : string) : bool :=
  match s with EmptyString => false | _ => true end.

(** The line feed. *)
Definition nl : string := String (ascii_of_nat 10) EmptyString.

End Py.

(** ** Values, exceptions and the monad of effects *)

(** What [json.loads] returns. An object keeps its items as a list; a key is
    looked up from the front. *)
Inductive json :=
| JNull
| JBool (b : bool)
| JInt (z : Z)
| JFloat (f : float)
| JString (s : string)
| JArray (l : list json)
| JObject (kvs : list (string * json)).

(** [d.get(key)] on the items of an object. *)
Fixpoint json_get (key : string) (kvs : list (string * json)) : option json :=
  match kvs with
  | [] => None
  | (k, v) :: kvs' => if String.eqb k key then Some v else json_get key kvs'
  end.

(** Truth value of a parsed value: [if v:]. *)
Definition json_truthy (v : json) : bool :=
  match v with
  | JNull => false
  | JBool b => b
  | JInt z => negb (z =? 0)
  | JFloat f => negb (PrimFloat.eqb f PrimFloat.zero)
  | JString s => Py.truthy s
  | JArray l => match l with [] => false | _ => true end
  | JObject kvs => match kvs with [] => false | _ => true end
  end.

(** The exception classes the module tells apart or raises. All of them are
    subclasses of [Exception]. *)
Inductive exn_class :=
| JSONDecodeError | TypeError | NameError | ValueError | IndexError
| AttributeError | ValidationError | OtherError.

(** An exception: its class and [str(e)]. *)
Record exn := Exn { exn_kind : exn_class; exn_str : string }.

Inductive result (A : Type) :=
| Ok (a : A)
| Raise (e : exn).
Arguments Ok {A} a.
Arguments Raise {A} e.

Global Instance exn_class_eq_dec : EqDecision exn_class.
Proof. solve_decision. Defined.

(** A chat message, [{"role": ..., "content": ...}]. *)
Record Message := Msg { role : string; content : string }.

(** A call to a collaborator outside the process. [CallComplete] carries the
    model, the message list and the keyword arguments [temperature] and
    [max_tokens] when the caller gives them. *)
Inductive Call :=
| CallComplete (model : string) (messages : list Message) (params : option (float * Z))
| CallSearch (search_query : string)
| CallFetch (url : string)
| CallExtract (downloaded url : string)
| CallRetrieve (query : string) (k : Z)
| CallOpen (file_path : string).

(** A computation over a state [S] that returns or raises. *)
Definition M (S A : Type) : Type := S → result A * S.

Global Instance M_ret {S} : MRet (M S) := λ A a s, (Ok a, s).
Global Instance M_bind {S} : MBind (M S) := λ A B k m s,
  match m s with
  | (Ok a, s') => k a s'
  | (Raise e, s') => (Raise e, s')
  end.

Definition of_result {S A} (r : result A) : M S A := λ s, (r, s).

(** [l[i]] *)
Definition py_index {A} (l : list A) (i : nat) : result A :=
  match l !! i with
  | Some x => Ok x
  | None => Raise (Exn IndexError "list index out of range")
  end.

(** ** The collaborators

    [generate_with_references] (from [utils]) answers a string or a value
    that is not a string, [None] here; its last argument holds the keyword
    arguments [temperature] and [max_tokens]. [DDGS_text] gives the [href]
    of each result of [DDGS().text]. [use_config] is called by
    [get_website_content_from_url] but no import of the module binds the
    name: in the module as it stands the call raises [NameError]
    ([use_config_unbound]); the field also covers a module that binds it.
    [fetch_url] and [extract] are trafilatura's, [json_loads] and
    [json_dumps] the parser and printer of [json]. [py_repr] formats a
    parsed value that is not a string inside an f-string.
    [retrieve_documents] ranks the chunks of the index for a query and
    returns the [content] of the documents found. [clear_documents_raises]
    says whether [self.rag.clear_documents()] raises on an index of these
    chunks, and then with which exception and with which chunks left in the
    index. [dumps_core_memory] is
    [json.dumps(_, indent=2)] on the core memory. [read_text], [pdf_pages]
    and [csv_rows] read a file as text, as the texts of its pages and as its
    rows; [split_text] is the splitter's. *)
Class External := {
  generate_with_references :
    list Call → string → list Message → option (float * Z) → option string;
  DDGS_text : list Call → string → list string;
  use_config : result unit;
  fetch_url : list Call → string → result (option string);
  extract : list Call → string → string → result (option string);
  json_loads : string → result json;
  json_dumps : json → string;
  py_repr : json → string;
  retrieve_documents : list (option string) → string → Z → list string;
  clear_documents_raises :
    list (option string) → option (exn * list (option string));
  dumps_core_memory : gmap string (gmap string string) → string;
  read_text : list Call → string → result string;
  pdf_pages : list Call → string → result (list string);
  csv_rows : list Call → string → result (list (list string));
  split_text : string → list string
}.

(** [use_config()] in the module as it stands. *)
Definition use_config_unbound : result unit :=
  Raise (Exn NameError "name 'use_config' is not defined").

(** A parsed value inside an f-string. *)
Definition py_format `{External} (v : json) : string :=
  match v with
  | JString s => s
  | _ => py_repr v
  end.

(** ** The module's functions *)
Section Program.
Context `{External}.

Local Abbreviation nl := Py.nl.

(** [for x in l: acc = f(acc, x)] *)
Fixpoint for_each {S A B} (f : B → A → M S B) (l : list A) (acc : B) : M S B :=
  match l with
  | [] => mret acc
  | x :: l' => acc' ← f acc x; for_each f l' acc'
  end.

(** The collaborators that talk to the outside world: each call answers from
    the history before it and is appended to the history. *)
Definition do_complete (model : string) (messages : list Message)
    (params : option (float * Z)) : M (list Call) (option string) :=
  λ h, (Ok (generate_with_references h model messages params),
        h ++ [CallComplete model messages params]).

Definition do_search (search_query : string) : M (list Call) (list string) :=
  λ h, (Ok (DDGS_text h search_query), h ++ [CallSearch search_query]).

Definition do_fetch (url : string) : M (list Call) (option string) :=
  λ h, (fetch_url h url, h ++ [CallFetch url]).

Definition do_extract (downloaded url : string) : M (list Call) (option string) :=
  λ h, (extract h downloaded url, h ++ [CallExtract downloaded url]).

(** [type(v).__name__] *)
Definition py_type_name (v : json) : string :=
  match v with
  | JNull => "NoneType"
  | JBool _ => "bool"
  | JInt _ => "int"
  | JFloat _ => "float"
  | JString _ => "str"
  | JArray _ => "list"
  | JObject _ => "dict"
  end.

(** The receiver of [.get]: the items of a dict; another value has no such
    attribute. *)
Definition dict_items (v : json) : result (list (string * json)) :=
  match v with
  | JObject kvs => Ok kvs
  | _ => Raise (Exn AttributeError
                  ("'" +:+ py_type_name v +:+ "' object has no attribute 'get'"))
  end.

Definition website_block (title url content : string) : string :=
  "=========== Website Title: " +:+ title +:+ " ===========" +:+ nl +:+ nl +:+
  "=========== Website URL: " +:+ url +:+ " ===========" +:+ nl +:+ nl +:+
  "=========== Website Content ===========" +:+ nl +:+ nl +:+
  content +:+ nl +:+ nl +:+
  "=========== Website Content End ===========" +:+ nl +:+ nl.

Definition no_content (url : string) : string :=
  "No content could be extracted from " +:+ url.

(** The [try] block of [get_website_content_from_url]. The three
    [config.set] calls act on the object [use_config] returned and on
    nothing else. *)
Definition website_try (url : string) : M (list Call) string :=
  _ ← of_result use_config;
  downloaded ← do_fetch url;
  match downloaded with
  | None => mret ("Failed to fetch content from " +:+ url)
  | Some downloaded =>
      result ← do_extract downloaded url;
      match result with
      | Some result =>
          if Py.truthy result then
            result_dict ← of_result (json_loads result);
            items ← of_result (dict_items result_dict);
            let title :=
              default (JString "No title found") (json_get "title" items) in
            let content :=
              default (default (JString "No content extracted")
                               (json_get "raw_text" items))
                      (json_get "text" items) in
            if json_truthy content
            then mret (website_block (py_format title) url (py_format content))
            else mret (no_content url)
          else mret (no_content url)
      | None => mret (no_content url)
      end
  end.

(** [get_website_content_from_url]: the [try] block under its two handlers,
    [except json.JSONDecodeError] and [except Exception as e]. *)
Definition get_website_content_from_url (url : string) : M (list Call) string :=
  λ h, match website_try url h with
       | (Ok s, h') => (Ok s, h')
       | (Raise e, h') =>
           if decide (exn_kind e = JSONDecodeError)
           then (Ok ("Failed to parse content from " +:+ url), h')
           else (Ok ("An error occurred while processing " +:+ url +:+ ": "
                     +:+ exn_str e), h')
       end.

Definition success_marker : string := "Based on the following results:".
Definition no_results : string :=
  "No relevant information found from the web search.".

(** [search_web] *)
Definition search_web (search_query : string) : M (list Call) string :=
  results ← do_search search_query;
  result_string ←
    for_each (λ result_string href,
                web_info ← get_website_content_from_url href;
                mret (result_string +:+ (web_info +:+ nl +:+ nl)))
             results "";
  if Py.truthy (Py.strip result_string)
  then mret (success_marker +:+ nl +:+ nl +:+ result_string)
  else mret no_results.

(** *** OllamaAgent *)
Record OllamaAgent := {
  model : string;
  name : string;
  system_prompt : string
}.

Definition search_trigger : string := "[SEARCH:".

(** [response.split("[SEARCH:", 1)[1].split("]", 1)[0].strip()] *)
Definition search_query_of (response : string) : result string :=
  match py_index (Py.split1 search_trigger response) 1 with
  | Ok rest =>
      match py_index (Py.split1 "]" rest) 0 with
      | Ok q => Ok (Py.strip q)
      | Raise e => Raise e
      end
  | Raise e => Raise e
  end.

Definition search_followup (search_query search_results : string) : string :=
  "Here are the search results for '" +:+ search_query +:+ "':" +:+ nl +:+ nl +:+
  search_results +:+ nl +:+ nl +:+
  "Please provide an updated response based on this information.".

(** The end of [generate_response]: [json.loads] of a value that is not a
    string raises [TypeError], which the handler for [JSONDecodeError] lets
    through, like any other exception of the parser. *)
Definition canonical_json (response : option string) : result string :=
  match response with
  | None =>
      Raise (Exn TypeError
               "the JSON object must be str, bytes or bytearray, not NoneType")
  | Some r =>
      match json_loads r with
      | Ok json_response => Ok (json_dumps json_response)
      | Raise e =>
          if decide (exn_kind e = JSONDecodeError) then Ok r else Raise e
      end
  end.

(** [OllamaAgent.generate_response] *)
Definition generate_response (self : OllamaAgent) (message : string)
    : M (list Call) (string * bool) :=
  let messages := [Msg "system" (system_prompt self); Msg "user" message] in
  response ← do_complete (model self) messages None;
  '(response, web_search_performed) ←
    match response with
    | Some r =>
        if Py.contains search_trigger r then
          search_query ← of_result (search_query_of r);
          search_results ← search_web search_query;
          let messages :=
            messages ++ [Msg "assistant" r;
                         Msg "user" (search_followup search_query search_results)] in
          response ← do_complete (model self) messages None;
          mret (response, true)
        else mret (response, false)
    | None => mret (response, false)
    end;
  text ← of_result (canonical_json response);
  mret (text, web_search_performed).

(** [asyncio.gather] over the reference agents: the results come in the
    order of the agents, and the first exception is raised to the caller. The
    calls of the agents are recorded agent after agent. *)
Fixpoint gather (agents : list OllamaAgent) (message : string)
    : M (list Call) (list (string * bool)) :=
  match agents with
  | [] => mret []
  | agent :: agents' =>
      r ← generate_response agent message;
      rs ← gather agents' message;
      mret (r :: rs)
  end.

(** *** The query extension *)
Record QueryItem := { query : string; type : string }.
Record QueryExtension := { queries : list QueryItem }.

Definition validation_error : exn :=
  Exn ValidationError "validation error for QueryExtension".

(** [QueryItem]: both fields are required strings; other keys are ignored. *)
Definition validate_item (v : json) : result QueryItem :=
  match v with
  | JObject kvs =>
      match json_get "query" kvs, json_get "type" kvs with
      | Some (JString q), Some (JString t) => Ok {| query := q; type := t |}
      | _, _ => Raise validation_error
      end
  | _ => Raise validation_error
  end.

Fixpoint validate_items (l : list json) : result (list QueryItem) :=
  match l with
  | [] => Ok []
  | v :: l' =>
      match validate_item v, validate_items l' with
      | Ok q, Ok qs => Ok (q :: qs)
      | _, _ => Raise validation_error
      end
  end.

(** [QueryExtension.model_validate] on the items of a dict: [queries] is a
    list of items and defaults to the empty list. *)
Definition model_validate (kvs : list (string * json)) : result QueryExtension :=
  match json_get "queries" kvs with
  | None => Ok {| queries := [] |}
  | Some (JArray l) =>
      match validate_items l with
      | Ok qs => Ok {| queries := qs |}
      | Raise e => Raise e
      end
  | Some _ => Raise validation_error
  end.

(** The [try] block that reads the extension agent's output. *)
Definition extension_try (extension_output : string) : result QueryExtension :=
  match json_loads extension_output with
  | Ok (JObject kvs) => model_validate kvs
  | Ok (JArray l) => model_validate [("queries", JArray l)]
  | Ok _ => Raise (Exn ValueError "Unexpected JSON structure")
  | Raise e => Raise e
  end.

(** The block under its handlers: [except json.JSONDecodeError] and
    [except Exception] both print a notice and take the empty collection. *)
Definition parse_query_extension (extension_output : string) : QueryExtension :=
  match extension_try extension_output with
  | Ok queries => queries
  | Raise _ => {| queries := [] |}
  end.

(** *** OllamaMixtureOfAgents *)
Inductive Roles := system | user | assistant | tool.

(** The orchestrator. [core_memory_file] is the document stored in the file
    of that path, [agent_core_memory] the [core_memory] attribute of the
    library object, [agent_event_memory] the events of the event memory and
    [rag] the chunks of the similarity index, in the order they were added. *)
Record OllamaMixtureOfAgents := {
  reference_agents : list OllamaAgent;
  final_agent : OllamaAgent;
  temperature : float;
  max_tokens : Z;
  rounds : Z;
  web_search_enabled : bool;
  core_memory : gmap string (gmap string string);
  agent_core_memory : gmap string (gmap string string);
  core_memory_file : gmap string (gmap string string);
  agent_event_memory : list (Roles * option string);
  rag : list (option string);
  document_count : Z;
  primary_model : string
}.

Definition set_web_search_enabled (b : bool) (o : OllamaMixtureOfAgents) :=
  {| reference_agents := reference_agents o; final_agent := final_agent o;
     temperature := temperature o; max_tokens := max_tokens o;
     rounds := rounds o; web_search_enabled := b;
     core_memory := core_memory o; agent_core_memory := agent_core_memory o;
     core_memory_file := core_memory_file o;
     agent_event_memory := agent_event_memory o; rag := rag o;
     document_count := document_count o; primary_model := primary_model o |}.

Definition set_core_memory (d : gmap string (gmap string string))
    (o : OllamaMixtureOfAgents) :=
  {| reference_agents := reference_agents o; final_agent := final_agent o;
     temperature := temperature o; max_tokens := max_tokens o;
     rounds := rounds o; web_search_enabled := web_search_enabled o;
     core_memory := d; agent_core_memory := agent_core_memory o;
     core_memory_file := core_memory_file o;
     agent_event_memory := agent_event_memory o; rag := rag o;
     document_count := document_count o; primary_model := primary_model o |}.

Definition set_agent_core_memory (d : gmap string (gmap string string))
    (o : OllamaMixtureOfAgents) :=
  {| reference_agents := reference_agents o; final_agent := final_agent o;
     temperature := temperature o; max_tokens := max_tokens o;
     rounds := rounds o; web_search_enabled := web_search_enabled o;
     core_memory := core_memory o; agent_core_memory := d;
     core_memory_file := core_memory_file o;
     agent_event_memory := agent_event_memory o; rag := rag o;
     document_count := document_count o; primary_model := primary_model o |}.

Definition set_core_memory_file (d : gmap string (gmap string string))
    (o : OllamaMixtureOfAgents) :=
  {| reference_agents := reference_agents o; final_agent := final_agent o;
     temperature := temperature o; max_tokens := max_tokens o;
     rounds := rounds o; web_search_enabled := web_search_enabled o;
     core_memory := core_memory o; agent_core_memory := agent_core_memory o;
     core_memory_file := d;
     agent_event_memory := agent_event_memory o; rag := rag o;
     document_count := document_count o; primary_model := primary_model o |}.

Definition set_agent_event_memory (l : list (Roles * option string))
    (o : OllamaMixtureOfAgents) :=
  {| reference_agents := reference_agents o; final_agent := final_agent o;
     temperature := temperature o; max_tokens := max_tokens o;
     rounds := rounds o; web_search_enabled := web_search_enabled o;
     core_memory := core_memory o; agent_core_memory := agent_core_memory o;
     core_memory_file := core_memory_file o;
     agent_event_memory := l; rag := rag o;
     document_count := document_count o; primary_model := primary_model o |}.

Definition set_rag (l : list (option string)) (o : OllamaMixtureOfAgents) :=
  {| reference_agents := reference_agents o; final_agent := final_agent o;
     temperature := temperature o; max_tokens := max_tokens o;
     rounds := rounds o; web_search_enabled := web_search_enabled o;
     core_memory := core_memory o; agent_core_memory := agent_core_memory o;
     core_memory_file := core_memory_file o;
     agent_event_memory := agent_event_memory o; rag := l;
     document_count := document_count o; primary_model := primary_model o |}.

Definition set_document_count (n : Z) (o : OllamaMixtureOfAgents) :=
  {| reference_agents := reference_agents o; final_agent := final_agent o;
     temperature := temperature o; max_tokens := max_tokens o;
     rounds := rounds o; web_search_enabled := web_search_enabled o;
     core_memory := core_memory o; agent_core_memory := agent_core_memory o;
     core_memory_file := core_memory_file o;
     agent_event_memory := agent_event_memory o; rag := rag o;
     document_count := n; primary_model := primary_model o |}.

(** Modelled from the spec: [AgentEventMemory.add_event] is library code;
    the event log is an append-only record of (role, message) turns. *)
Definition add_event (role : Roles) (message : option string)
    (o : OllamaMixtureOfAgents) : OllamaMixtureOfAgents :=
  set_agent_event_memory (agent_event_memory o ++ [(role, message)]) o.

(** Modelled from the spec: [RAGColbertReranker.add_document] is library
    code; the archival memory is an ordered collection of text chunks and
    [add] puts one chunk more into it. *)
Definition add_document (message : option string)
    (o : OllamaMixtureOfAgents) : OllamaMixtureOfAgents :=
  set_rag (rag o ++ [message]) o.

(** Modelled from the spec: [RAGColbertReranker.clear_documents] is library
    code; [clear] empties the archival memory. The call may raise, as
    [clear_documents_raises] says, and then leaves in the index what the
    library left there. *)
Definition clear_documents (o : OllamaMixtureOfAgents)
    : result unit * OllamaMixtureOfAgents :=
  match clear_documents_raises (rag o) with
  | None => (Ok (), set_rag [] o)
  | Some (e, kept) => (Raise e, set_rag kept o)
  end.

(** Modelled from the spec: [AgentCoreMemory.update_core_memory] is library
    code; the core memory is file-backed and an edit is written through. *)
Definition update_core_memory (d : gmap string (gmap string string))
    (o : OllamaMixtureOfAgents) : OllamaMixtureOfAgents :=
  set_core_memory_file d (set_agent_core_memory d o).

(** Modelled from the spec: [AgentCoreMemory.load_core_memory] is library
    code; [load] gives the document of the durable storage. *)
Definition agent_load_core_memory (o : OllamaMixtureOfAgents)
    : gmap string (gmap string string) :=
  core_memory_file o.

(** [update_memory] *)
Definition update_memory (message : option string) (role : Roles)
    (self : OllamaMixtureOfAgents) : OllamaMixtureOfAgents :=
  add_document message (add_event role message self).

(** [load_core_memory] *)
Definition load_core_memory (self : OllamaMixtureOfAgents)
    : gmap string (gmap string string) :=
  agent_load_core_memory self.

Definition empty_core_memory : gmap string (gmap string string) :=
  <["persona" := ∅]> (<["user" := ∅]> (<["scratchpad" := ∅]> ∅)).

(** [clear_core_memory]: the one empty document becomes the library object's
    and the orchestrator's, and is written to the file. *)
Definition clear_core_memory (self : OllamaMixtureOfAgents)
    : string * OllamaMixtureOfAgents :=
  let self := set_agent_core_memory empty_core_memory self in
  let self := set_core_memory empty_core_memory self in
  let self := set_core_memory_file empty_core_memory self in
  ("Core memory cleared successfully.", self).

(** [edit_core_memory] *)
Definition edit_core_memory (section key value : string)
    (self : OllamaMixtureOfAgents) : string * OllamaMixtureOfAgents :=
  let d := core_memory self in
  let d := if decide (d !! section = None) then <[section := ∅]> d else d in
  let d := alter (insert key value) section d in
  let self := set_core_memory d self in
  let self := update_core_memory d self in
  ("Core memory updated: " +:+ section +:+ "." +:+ key +:+ " = " +:+ value,
   self).

(** [toggle_web_search] *)
Definition toggle_web_search (enabled : bool) (self : OllamaMixtureOfAgents)
    : string * OllamaMixtureOfAgents :=
  ("Web search " +:+ (if enabled then "enabled" else "disabled"),
   set_web_search_enabled enabled self).

(** [update_memory_section] *)
Definition update_memory_section (self : OllamaMixtureOfAgents) : string :=
  "Archival Memories:" +:+ pretty (document_count self) +:+ nl +:+
  "Conversation History Entries:" +:+
  pretty (length (agent_event_memory self)) +:+ nl +:+ nl +:+
  "Core Memory Content:" +:+ nl +:+ dumps_core_memory (core_memory self).

(** *** Archival memory *)

(** The orchestrator's methods run over the orchestrator and the history. *)
Definition lift {A} (m : M (list Call) A)
    : M (OllamaMixtureOfAgents * list Call) A :=
  λ '(self, h), let '(r, h') := m h in (r, (self, h')).

Definition get_self
    : M (OllamaMixtureOfAgents * list Call) OllamaMixtureOfAgents :=
  λ '(self, h), (Ok self, (self, h)).

Definition modify_self (f : OllamaMixtureOfAgents → OllamaMixtureOfAgents)
    : M (OllamaMixtureOfAgents * list Call) unit :=
  λ '(self, h), (Ok tt, (f self, h)).

(** [self.rag.retrieve_documents(query, k)] *)
Definition do_retrieve (self : OllamaMixtureOfAgents) (query : string) (k : Z)
    : M (list Call) (list string) :=
  λ h, (Ok (retrieve_documents (rag self) query k), h ++ [CallRetrieve query k]).

(** [search_archival_memory] *)
Definition search_archival_memory (query : string)
    : M (OllamaMixtureOfAgents * list Call) (list string) :=
  self ← get_self;
  lift (do_retrieve self query 5).

(** [add_to_archival_memory] *)
Definition add_to_archival_memory (content : string)
    (self : OllamaMixtureOfAgents) : string * OllamaMixtureOfAgents :=
  if Py.truthy (Py.strip content) then
    let self := add_document (Some content) self in
    let self := set_document_count (document_count self + 1) self in
    ("Added to archival memory: " +:+ content, self)
  else ("Failed to add empty content to archival memory.", self).

(** [clear_archival_memory]: the [try] block under [except Exception as e].
    The counter is reset after the index is cleared; when the clearing
    raises, the method returns the error text and the counter is as it
    was. *)
Definition clear_archival_memory (self : OllamaMixtureOfAgents)
    : string * OllamaMixtureOfAgents :=
  match clear_documents self with
  | (Ok _, self) =>
      let self := set_document_count 0 self in
      ("Archival memory cleared successfully.", self)
  | (Raise e, self) =>
      ("Error clearing archival memory: " +:+ exn_str e, self)
  end.

(** [edit_archival_memory] *)
Definition edit_archival_memory (old_content new_content : string)
    (self : OllamaMixtureOfAgents) : string * OllamaMixtureOfAgents :=
  let self := add_document (Some new_content) self in
  let self := set_document_count (document_count self + 1) self in
  ("New content '" +:+ new_content +:+
   "' added to archival memory. Note: Old content not removed due to limitations of the current implementation.",
   self).

(** [read_pdf] *)
Definition read_pdf (file_path : string) : M (list Call) string :=
  pages ← (λ h, (pdf_pages h file_path, h ++ [CallOpen file_path]));
  mret (foldl (λ content page, content +:+ (page +:+ nl +:+ nl)) "" pages).

(** [read_csv] *)
Definition read_csv (file_path : string) : M (list Call) string :=
  rows ← (λ h, (csv_rows h file_path, h ++ [CallOpen file_path]));
  mret (foldl (λ content row, content +:+ (Py.join "," row +:+ nl)) "" rows).

(** [file_path.split('.')[-1].lower()] *)
Definition file_extension_of (file_path : string) : string :=
  Py.lower (List.last (Py.split_char "." file_path) "").

Inductive upload_step :=
| Unsupported (file_extension : string)
| Content (content : string).

(** The [try] block of [upload_document] up to the text of the file. *)
Definition upload_read (file_path : string) : M (list Call) upload_step :=
  let file_extension := file_extension_of file_path in
  if String.eqb file_extension "txt" then
    content ← (λ h, (read_text h file_path, h ++ [CallOpen file_path]));
    mret (Content content)
  else if String.eqb file_extension "pdf" then
    content ← read_pdf file_path; mret (Content content)
  else if String.eqb file_extension "csv" then
    content ← read_csv file_path; mret (Content content)
  else mret (Unsupported file_extension).

(** [for split in splits: self.rag.add_document(split); self.document_count += 1] *)
Definition add_splits (splits : list string) (self : OllamaMixtureOfAgents)
    : OllamaMixtureOfAgents :=
  foldl (λ self split,
           let self := add_document (Some split) self in
           set_document_count (document_count self + 1) self)
        self splits.

(** [upload_document]: the [try] block under [except Exception as e]. *)
Definition upload_document (file_path : string)
    : M (OllamaMixtureOfAgents * list Call) string :=
  λ '(self, h),
    match upload_read file_path h with
    | (Ok (Unsupported file_extension), h') =>
        (Ok ("Unsupported file type: " +:+ file_extension), (self, h'))
    | (Ok (Content content), h') =>
        if negb (Py.truthy (Py.strip content))
        then (Ok "The file is empty or could not be read.", (self, h'))
        else
          let splits := split_text content in
          (Ok ("Document " +:+ file_path +:+
               " uploaded and processed successfully. Added " +:+
               pretty (length splits) +:+ " chunks to archival memory."),
           (add_splits splits self, h'))
    | (Raise e, h') =>
        (Ok ("An error occurred while processing " +:+ file_path +:+ ": "
             +:+ exn_str e), (self, h'))
    end.

(** *** The turn *)

(** Lines 270-275: the responses that are not [None] and do not start with
    [Error:] are the references; the search flags are or-ed. *)
Definition usable (response : option string) : bool :=
  match response with
  | Some r => negb (Py.startswith r "Error:")
  | None => false
  end.

Definition fan_in (results : list (option string * bool))
    : list string * bool :=
  foldl (λ '(references, web_search_performed) '(response, search_performed),
           (if usable response
            then references ++ option_list response
            else references,
            web_search_performed || search_performed))
        ([], false) results.

Definition all_failed_message : string :=
  "Error: All reference agents failed to generate responses.".

(** Lines 281-296: the first [final_prompt]. *)
Definition first_final_prompt (self : OllamaMixtureOfAgents)
    (input_message : string) (references : list string) : list Message :=
  let final_prompt := [Msg "system" (system_prompt (final_agent self))] in
  let persona := default ∅ (core_memory self !! "persona") in
  let personality :=
    default "No specific personality defined." (persona !! "personality") in
  let final_prompt :=
    final_prompt ++ [Msg "system" ("Personality: " +:+ personality)] in
  final_prompt ++
    [Msg "user" input_message;
     Msg "system" ("References:" +:+ nl +:+ Py.join nl references);
     Msg "system" (update_memory_section self)].

(** Lines 298-302: the search on the raw input. *)
Definition direct_augmentation (self : OllamaMixtureOfAgents)
    (input_message : string) (web_search_performed : bool)
    (final_prompt : list Message) : M (list Call) (bool * list Message) :=
  if web_search_enabled self then
    search_results ← search_web input_message;
    if Py.contains success_marker search_results
    then mret (true,
               final_prompt ++
                 [Msg "system" ("Web Search Results:" +:+ nl +:+ search_results)])
    else mret (web_search_performed, final_prompt)
  else mret (web_search_performed, final_prompt).

Definition query_extension_agent (self : OllamaMixtureOfAgents) : OllamaAgent :=
  {| model := model (final_agent self);
     name := "QueryExtensionAgent";
     system_prompt := "You are a world class query extension algorithm capable of extending queries by writing new queries. Do not answer the queries, simply provide a list of additional queries in JSON format." |}.

(** [min(3, max(1, self.document_count))] *)
Definition retrieval_k (self : OllamaMixtureOfAgents) : Z :=
  Z.min 3 (Z.max 1 (document_count self)).

Definition context_header : string :=
  "Consider the following context:" +:+ nl +:+
  "==========Context===========" +:+ nl.

Definition question_footer (input_message : string) : string :=
  nl +:+ "======================" +:+ nl +:+ "Question: " +:+ input_message.

(** Lines 327-343: the retrieval for the input and for each query of the
    extension, and the prompt built from it. *)
Definition retrieve_context (self : OllamaMixtureOfAgents)
    (input_message : string) (extension : QueryExtension) : M (list Call) string :=
  let prompt := context_header in
  documents ← do_retrieve self input_message (retrieval_k self);
  let prompt :=
    match documents with
    | [] => prompt +:+ ("No relevant documents found in archival memory." +:+ nl +:+ nl)
    | _ => foldl (λ prompt doc, prompt +:+ (doc +:+ nl +:+ nl)) prompt documents
    end in
  prompt ←
    for_each (λ prompt query_item,
                documents ← do_retrieve self (query query_item) (retrieval_k self);
                mret (foldl (λ prompt doc,
                               if negb (Py.contains doc prompt)
                               then prompt +:+ (doc +:+ nl +:+ nl)
                               else prompt)
                            prompt documents))
             (queries extension) prompt;
  mret (prompt +:+ question_footer input_message).

(** Lines 346-349: the [final_prompt] of the synthesis call. *)
Definition synthesis_prompt (self : OllamaMixtureOfAgents) (prompt : string)
    : list Message :=
  [Msg "system" (system_prompt (final_agent self)); Msg "user" prompt].

(** Lines 310-362: [get_response] from the extension agent's output on. *)
Definition finish_turn (input_message : string) (web_search_performed : bool)
    (extension_output : string)
    : M (OllamaMixtureOfAgents * list Call) (option string * bool) :=
  self ← get_self;
  let extension := parse_query_extension extension_output in
  prompt ← lift (retrieve_context self input_message extension);
  let final_prompt := synthesis_prompt self prompt in
  final_response ←
    lift (do_complete (model (final_agent self)) final_prompt
            (Some (temperature self, max_tokens self)));
  _ ← modify_self (update_memory final_response assistant);
  mret (final_response, web_search_performed).

(** Lines 270-308: [get_response] from the gathered results on. *)
Definition respond (input_message : string)
    (results : list (option string * bool))
    : M (OllamaMixtureOfAgents * list Call) (option string * bool) :=
  self ← get_self;
  let '(references, web_search_performed) := fan_in results in
  match references with
  | [] => mret (Some all_failed_message, false)
  | _ =>
      let final_prompt := first_final_prompt self input_message references in
      '(web_search_performed, final_prompt) ←
        lift (direct_augmentation self input_message web_search_performed
                final_prompt);
      '(extension_output, _) ←
        lift (generate_response (query_extension_agent self)
                ("Consider the following query: " +:+ input_message));
      finish_turn input_message web_search_performed extension_output
  end.

(** The results of the agents as the values lines 272-275 test: the text of
    an agent is not [None]. *)
Definition gathered (results : list (string * bool))
    : list (option string * bool) :=
  (λ '(response, search_performed), (Some response, search_performed)) <$> results.

(** [get_response] *)
Definition get_response (input_message : string)
    : M (OllamaMixtureOfAgents * list Call) (option string * bool) :=
  _ ← modify_self (update_memory (Some input_message) user);
  self ← get_self;
  results ← lift (gather (reference_agents self) input_message);
  respond input_message (gathered results).

End Program.

(** ** A scripted world

    Collaborators with fixed answers, to run the functions on. The page
    fetcher is the module's as it stands: [use_config] is unbound. *)
Module Scenario.

Definition solar_request : string := "I need data. [SEARCH: solar flares] Please wait.".
Definition second_request : string := "Still unsure. [SEARCH: sunspots] Hold on.".
Definition unclosed_request : string := "Let me look. [SEARCH: solar flares".

(** The model [failing] answers an error text, the model [searcher] asks
    for a search in its first and in its second answer, the model [synth]
    answers text that is not JSON to the extension agent's call (no keyword
    arguments) and the final answer to the synthesis call. *)
Definition scripted_completion (h : list Call) (model : string)
    (messages : list Message) (params : option (float * Z)) : option string :=
  if String.eqb model "failing" then Some "Error: model unavailable"
  else if String.eqb model "unclosed" then
    Some (if (length messages <=? 2)%nat then unclosed_request else "Done.")
  else if String.eqb model "searcher" then
    Some (if (length messages <=? 2)%nat then solar_request else second_request)
  else if String.eqb model "synth" then
    match params with
    | None => Some "no queries today"
    | Some _ => Some "Final answer."
    end
  else Some "Solar flares are eruptions on the sun.".

Definition scripted_loads (s : string) : result json :=
  if String.eqb s "[]" then Ok (JArray [])
  else Raise (Exn JSONDecodeError "Expecting value: line 1 column 1 (char 0)").

Definition scripted_dumps (j : json) : string :=
  match j with
  | JArray [] => "[]"
  | _ => "null"
  end.

#[export] Instance scripted : External := {|
  generate_with_references := scripted_completion;
  DDGS_text := λ _ q,
    if String.eqb q "nothing" then [] else ["https://example.org/a"];
  use_config := use_config_unbound;
  fetch_url := λ _ _, Ok None;
  extract := λ _ _ _, Ok None;
  json_loads := scripted_loads;
  json_dumps := scripted_dumps;
  py_repr := λ _, "None";
  retrieve_documents := λ chunks _ k, take (Z.to_nat k) (omap id chunks);
  clear_documents_raises := λ _, None;
  dumps_core_memory := λ _, "{}";
  read_text := λ _ _, Ok "first chunk";
  pdf_pages := λ _ _, Ok [];
  csv_rows := λ _ _, Ok [];
  split_text := λ s, [s]
|}.

(** The scripted world with [use_config] bound: the first page cannot be
    fetched, nothing is extracted from the second, the third has a title and
    a text. *)
Definition bound : External := {|
  generate_with_references := scripted_completion;
  DDGS_text := λ _ _,
    ["https://example.org/down"; "https://example.org/blank";
     "https://example.org/a"];
  use_config := Ok ();
  fetch_url := λ _ url,
    if String.eqb url "https://example.org/down" then Ok None
    else Ok (Some url);
  extract := λ _ downloaded _,
    if String.eqb downloaded "https://example.org/blank" then Ok None
    else Ok (Some "page");
  json_loads := λ s,
    if String.eqb s "page"
    then Ok (JObject [("title", JString "Flares"); ("text", JString "Eruptions.")])
    else scripted_loads s;
  json_dumps := scripted_dumps;
  py_repr := λ _, "None";
  retrieve_documents := λ chunks _ k, take (Z.to_nat k) (omap id chunks);
  clear_documents_raises := λ _, None;
  dumps_core_memory := λ _, "{}";
  read_text := λ _ _, Ok "first chunk";
  pdf_pages := λ _ _, Ok [];
  csv_rows := λ _ _, Ok [];
  split_text := λ s, [s]
|}.

Definition agent (model_name : string) : OllamaAgent :=
  {| model := model_name; name := model_name;
     system_prompt := "You are " +:+ model_name +:+ "." |}.

(** A fresh orchestrator over the given reference agents. *)
Definition orchestrator (agents : list OllamaAgent) : OllamaMixtureOfAgents :=
  {| reference_agents := agents;
     final_agent := agent "synth";
     temperature := 0.5%float;
     max_tokens := 1000;
     rounds := 1;
     web_search_enabled := true;
     core_memory := empty_core_memory;
     agent_core_memory := empty_core_memory;
     core_memory_file := empty_core_memory;
     agent_event_memory := [];
     rag := [];
     document_count := 0;
     primary_model := "synth" |}.

(** Two reference agents whose model answers an error text. *)
Definition failing_team : OllamaMixtureOfAgents :=
  orchestrator [agent "failing"; agent "failing"].

(** One reference agent that answers. *)
Definition analyst_team : OllamaMixtureOfAgents :=
  orchestrator [agent "analyst"].

Definition failing_results : list (string * bool) :=
  [("Error: model unavailable", false); ("Error: model unavailable", false)].

Definition analyst_results : list (string * bool) :=
  [("Solar flares are eruptions on the sun.", false)].

End Scenario.

(** ** Observations on histories and results *)

(** The calls of one kind. *)
Definition is_page (c : Call) : bool :=
  match c with CallFetch _ | CallExtract _ _ => true | _ => false end.
Definition is_search (c : Call) : bool :=
  match c with CallSearch _ => true | _ => false end.
Definition is_retrieve (c : Call) : bool :=
  match c with CallRetrieve _ _ => true | _ => false end.

(** The queries of the web searches of a history, in order. *)
Definition searches (d : list Call) : list string :=
  omap (λ c, match c with CallSearch q => Some q | _ => None end) d.

(** The message lists of the completion calls of a history, in order. *)
Definition completions (d : list Call) : list (list Message) :=
  omap (λ c, match c with CallComplete _ ms _ => Some ms | _ => None end) d.

(** The requests to the similarity index of a history, in order. *)
Definition retrievals (d : list Call) : list (string * Z) :=
  omap (λ c, match c with CallRetrieve q k => Some (q, k) | _ => None end) d.

(** A request to the similarity index asks for [K] chunks. *)
Definition retrieves_with (K : Z) (c : Call) : Prop :=
  match c with CallRetrieve _ k => k = K | _ => True end.

(** A response the fan-in drops: [None], or a text that begins with the
    error prefix. *)
Definition failed (response : option string) : Prop :=
  match response with
  | None => True
  | Some r => Py.startswith r "Error:" = true
  end.

(** [h'] is [h] with calls that satisfy [P] after it. *)
Definition extends (P : Call → Prop) (h h' : list Call) : Prop :=
  ∃ d, h' = h ++ d ∧ Forall P d.

(** Every run of [m] takes a state to a state related by [R]. *)
Definition preserves {S A} (R : relation S) (m : M S A) : Prop :=
  ∀ s, R s (m s).2.

(** The texts [get_website_content_from_url] gives for a URL: the four
    failure notices and the block of an extracted page. *)
Inductive website_text (url : string) : string → Prop :=
| fetch_failed :
    website_text url ("Failed to fetch content from " +:+ url)
| nothing_extracted :
    website_text url (no_content url)
| parse_failed :
    website_text url ("Failed to parse content from " +:+ url)
| processing_failed (e : string) :
    website_text url
      ("An error occurred while processing " +:+ url +:+ ": " +:+ e)
| extracted (title content : string) :
    website_text url (website_block title url content).

(** A validated collection, or the empty one. *)
Definition or_empty (r : result QueryExtension) : QueryExtension :=
  match r with
  | Ok extension => extension
  | Raise _ => {| queries := [] |}
  end.

(** [result_string] after the loop of [search_web] over the texts [infos]. *)
Definition joined (infos : list string) : string :=
  foldl (λ result_string web_info,
           result_string +:+ (web_info +:+ Py.nl +:+ Py.nl)) "" infos.

(** The message lists of the two completion calls of an agent. *)
Definition first_messages (self : OllamaAgent) (message : string)
    : list Message :=
  [Msg "system" (system_prompt self); Msg "user" message].

Definition second_messages (self : OllamaAgent) (message response
    search_query search_results : string) : list Message :=
  first_messages self message ++
    [Msg "assistant" response;
     Msg "user" (search_followup search_query search_results)].

(** The text of an agent with its search flag. *)
Definition with_flag (r : result string) (flag : bool) : result (string * bool) :=
  match r with
  | Ok text => Ok (text, flag)
  | Raise e => Raise e
  end.

(** The requests of the retrieval: one for the input, one for each query
    of the extension, each for [retrieval_k] chunks. *)
Definition retrieval_calls (self : OllamaMixtureOfAgents)
    (input_message : string) (extension : QueryExtension) : list Call :=
  CallRetrieve input_message (retrieval_k self) ::
  ((λ query_item, CallRetrieve (query query_item) (retrieval_k self))
     <$> queries extension).

(** The synthesis call of a turn. *)
Definition synthesis_call (self : OllamaMixtureOfAgents) (prompt : string)
    : Call :=
  CallComplete (model (final_agent self)) (synthesis_prompt self prompt)
    (Some (temperature self, max_tokens self)).

(** The prompt of lines 327-343 over the answers [found] of the index: the
    header, the chunks found for the input message or the notice that there
    are none, the chunks found for each query that the prompt does not hold
    yet, and the question. *)
Definition assembled_prompt (found : string → list string)
    (input_message : string) (items : list QueryItem) : string :=
  let prompt :=
    "Consider the following context:" +:+ Py.nl +:+
    "==========Context===========" +:+ Py.nl in
  let prompt :=
    match found input_message with
    | [] =>
        prompt +:+
        ("No relevant documents found in archival memory." +:+ Py.nl +:+ Py.nl)
    | documents =>
        foldl (λ prompt doc, prompt +:+ (doc +:+ Py.nl +:+ Py.nl)) prompt documents
    end in
  let prompt :=
    foldl (λ prompt item,
             foldl (λ prompt doc,
                      if negb (Py.contains doc prompt)
                      then prompt +:+ (doc +:+ Py.nl +:+ Py.nl)
                      else prompt)
                   prompt (found (query item)))
          prompt items in
  prompt +:+ (Py.nl +:+ "======================" +:+ Py.nl +:+
              "Question: " +:+ input_message).

(** ** The construction of the orchestrator *)

(** Modelled from the spec: the constructor of [AgentCoreMemory] is library
    code; the core memory is loaded from durable storage on construction.

    [__init__]: [stored] is the document in the core memory file, [None]
    when the file does not exist; the file is then made with the empty
    document of three sections (lines 166-169). The defaults of the
    parameters are the caller's to give. *)
Definition new_orchestrator (reference_agents : list OllamaAgent)
    (final_agent : OllamaAgent) (temperature : float) (max_tokens rounds : Z)
    (stored : option (gmap string (gmap string string)))
    : OllamaMixtureOfAgents :=
  let file := default empty_core_memory stored in
  {| reference_agents := reference_agents;
     final_agent := final_agent;
     temperature := temperature;
     max_tokens := max_tokens;
     rounds := rounds;
     web_search_enabled := true;
     core_memory := file;
     agent_core_memory := file;
     core_memory_file := file;
     agent_event_memory := [];
     rag := [];
     document_count := 0;
     primary_model := model final_agent |}.

(** ** The shell: the loop of [main] *)

(** colorama's escape sequences. *)
Module Colorama.
Definition code (n : string) : string :=
  String (ascii_of_nat 27) ("[" +:+ n +:+ "m").
Definition RED : string := code "31".
Definition GREEN : string := code "32".
Definition YELLOW : string := code "33".
Definition BLUE : string := code "34".
Definition MAGENTA : string := code "35".
Definition CYAN : string := code "36".
Definition BRIGHT : string := code "1".
Definition RESET_ALL : string := code "0".
End Colorama.

(** [s.split(c, n)] for a one-character separator: at most [n] splits. *)
Fixpoint split_max (c : ascii) (n : nat) (s : string) : list string :=
  match s with
  | EmptyString => [EmptyString]
  | String a s' =>
      match n with
      | O => [s]
      | S n' =>
          if Ascii.eqb a c then EmptyString :: split_max c n' s'
          else match split_max c n s' with
               | h :: t => String a h :: t
               | [] => [String a EmptyString]
               end
      end
  end.

(** [s[:n]] *)
Fixpoint py_take (n : nat) (s : string) : string :=
  match n, s with
  | S n', String a s' => String a (py_take n' s')
  | _, _ => EmptyString
  end.

(** [str(v)] of a text or [None]. *)
Definition py_str (v : option string) : string :=
  match v with
  | Some s => s
  | None => "None"
  end.

(** The [ValueError] of an unpacking into [expected] names. *)
Definition unpack_error (expected got : nat) : exn :=
  Exn ValueError
    (if (got <? expected)%nat
     then "not enough values to unpack (expected " +:+ pretty expected +:+
          ", got " +:+ pretty got +:+ ")"
     else "too many values to unpack (expected " +:+ pretty expected +:+ ")").

(** [_, a = l] *)
Definition unpack2 (l : list string) : result string :=
  match l with
  | [_; a] => Ok a
  | _ => Raise (unpack_error 2 (length l))
  end.

(** [_, a, b = l] *)
Definition unpack3 (l : list string) : result (string * string) :=
  match l with
  | [_; a; b] => Ok (a, b)
  | _ => Raise (unpack_error 3 (length l))
  end.

(** [_, a, b, c = l] *)
Definition unpack4 (l : list string) : result (string * string * string) :=
  match l with
  | [_; a; b; c] => Ok (a, b, c)
  | _ => Raise (unpack_error 4 (length l))
  end.

(** The clock and the format [:.2f] of a float. *)
Class Console := {
  time_time : list Call → float;
  format_2f : float → string
}.

(** What the shell writes: the prompt of [input] and the text of a
    [print]. *)
Inductive Output :=
| Prompt (text : string)
| Print (text : string).

(** The variables of the loop: the orchestrator, the flag of the time
    display and the standard output. *)
Record Shell := {
  mixture : OllamaMixtureOfAgents;
  show_time : bool;
  stdout : list Output
}.

Definition say (text : string) (sh : Shell) : Shell :=
  {| mixture := mixture sh; show_time := show_time sh;
     stdout := stdout sh ++ [Print text] |}.

Definition with_mixture (m : OllamaMixtureOfAgents) (sh : Shell) : Shell :=
  {| mixture := m; show_time := show_time sh; stdout := stdout sh |}.

Definition with_show_time (b : bool) (sh : Shell) : Shell :=
  {| mixture := mixture sh; show_time := b; stdout := stdout sh |}.

(** How one pass of the loop ends. *)
Inductive Step := Continue | Break.

Section ShellProgram.
Context `{External} `{Console}.

(** [print_welcome_message] *)
Definition print_welcome_message (sh : Shell) : Shell :=
  foldl (λ sh text, say text sh) sh
    [Colorama.CYAN +:+ Colorama.BRIGHT +:+
       "Welcome to the Vodalus Mixture of Agents Chat!";
     Colorama.YELLOW +:+ "Available commands:";
     Colorama.YELLOW +:+ "  'exit' - End the conversation";
     Colorama.YELLOW +:+ "  'agents' - List available agents";
     Colorama.YELLOW +:+ "  'time' - Toggle response time display";
     Colorama.YELLOW +:+ "  'web' - Toggle web search functionality";
     Colorama.YELLOW +:+ "  'edit core [section] [key] [value]' - Edit core memory";
     Colorama.YELLOW +:+ "  'search archival [query]' - Search archival memory";
     Colorama.YELLOW +:+ "  'add archival [content]' - Add to archival memory";
     Colorama.YELLOW +:+ "  'clear archival' - Clear archival memory";
     Colorama.YELLOW +:+ "  'edit archival [old_content] [new_content]' - Edit archival memory";
     Colorama.YELLOW +:+ "  'upload [file_path]' - Upload and process a document";
     Colorama.YELLOW +:+ "  'clear core' - Clear core memory";
     Colorama.RESET_ALL].

(** Lines 478-483: the branch of [search archival]. *)
Definition search_archival_command (user_input : string)
    : M (Shell * list Call) Step :=
  λ '(sh, h),
    match unpack2 (split_max " " 1 user_input) with
    | Raise e => (Raise e, (sh, h))
    | Ok query =>
        match search_archival_memory query (mixture sh, h) with
        | (Raise e, (m, h')) => (Raise e, (with_mixture m sh, h'))
        | (Ok results, (m, h')) =>
            let sh := with_mixture m sh in
            let sh :=
              say (Colorama.YELLOW +:+ "Archival memory search results for '"
                   +:+ query +:+ "':") sh in
            let sh :=
              foldl (λ sh line, say line sh) sh
                (imap (λ i result,
                         Colorama.YELLOW +:+ pretty (S i) +:+ ". " +:+
                         py_take 100 result +:+ "...")
                      results) in
            (Ok Continue, (sh, h'))
        end
    end.

(** Lines 508-521: an input that is no command is a turn. *)
Definition question (user_input : string) : M (Shell * list Call) Step :=
  λ '(sh, h),
    let sh := say (Colorama.YELLOW +:+ "Agents are thinking...") sh in
    let start_time := time_time h in
    match get_response user_input (mixture sh, h) with
    | (Raise e, (m, h')) => (Raise e, (with_mixture m sh, h'))
    | (Ok (response, web_search_performed), (m, h')) =>
        let end_time := time_time h' in
        let sh := with_mixture m sh in
        let sh :=
          say (Colorama.BLUE +:+ Py.nl +:+ "Vodalus:" +:+ Colorama.RESET_ALL
               +:+ " " +:+ py_str response) sh in
        let sh :=
          if web_search_performed
          then say (Colorama.YELLOW +:+ Py.nl +:+
                    "[Web search was performed during response generation]") sh
          else sh in
        let sh :=
          if show_time sh
          then let elapsed_time := PrimFloat.sub end_time start_time in
               say (Colorama.YELLOW +:+ Py.nl +:+ "Response Time: " +:+
                    format_2f elapsed_time +:+ " seconds") sh
          else sh in
        (Ok Continue, (sh, h'))
    end.

(** Lines 455-521: one pass of the loop on the line [raw] that [input]
    returned. *)
Definition main_step (raw : string) : M (Shell * list Call) Step :=
  λ '(sh, h),
    let user_input := Py.strip raw in
    let command := Py.lower user_input in
    if String.eqb command "exit" then
      (Ok Break,
       (say (Colorama.CYAN +:+
             "Thank you for using the Vodalus Mixture of Agents chat. Goodbye!")
            sh, h))
    else if String.eqb command "agents" then
      let sh := say (Colorama.MAGENTA +:+ "Available Agents:") sh in
      let sh :=
        foldl (λ sh agent, say (Colorama.MAGENTA +:+ "  - " +:+ name agent) sh)
              sh (reference_agents (mixture sh)) in
      (Ok Continue,
       (say (Colorama.MAGENTA +:+ "  - " +:+ name (final_agent (mixture sh))
             +:+ " (Synthesis Agent)") sh, h))
    else if String.eqb command "time" then
      let sh := with_show_time (negb (show_time sh)) sh in
      (Ok Continue,
       (say (Colorama.YELLOW +:+ "Response time display: " +:+
             (if show_time sh then "On" else "Off")) sh, h))
    else if String.eqb command "web" then
      let m :=
        set_web_search_enabled (negb (web_search_enabled (mixture sh)))
          (mixture sh) in
      let sh := with_mixture m sh in
      (Ok Continue,
       (say (Colorama.YELLOW +:+ "Web search: " +:+
             (if web_search_enabled m then "Enabled" else "Disabled")) sh, h))
    else if Py.startswith command "edit core" then
      match unpack4 (split_max " " 3 user_input) with
      | Ok (section, key, value) =>
          let '(_, m) := edit_core_memory section key value (mixture sh) in
          let sh := with_mixture m sh in
          (Ok Continue,
           (say (Colorama.YELLOW +:+ "Core memory updated: " +:+ section +:+
                 "." +:+ key +:+ " = " +:+ value) sh, h))
      | Raise _ =>
          (Ok Continue,
           (say (Colorama.RED +:+
                 "Invalid format. Use: edit core [section] [key] [value]") sh,
            h))
      end
    else if Py.startswith command "search archival" then
      search_archival_command user_input (sh, h)
    else if Py.startswith command "add archival" then
      match unpack2 (split_max " " 1 user_input) with
      | Raise e => (Raise e, (sh, h))
      | Ok content =>
          let '(result, m) := add_to_archival_memory content (mixture sh) in
          (Ok Continue, (say (Colorama.YELLOW +:+ result) (with_mixture m sh), h))
      end
    else if String.eqb command "clear archival" then
      let '(result, m) := clear_archival_memory (mixture sh) in
      (Ok Continue, (say (Colorama.YELLOW +:+ result) (with_mixture m sh), h))
    else if Py.startswith command "edit archival" then
      match unpack3 (split_max " " 2 user_input) with
      | Ok (old_content, new_content) =>
          let '(result, m) :=
            edit_archival_memory old_content new_content (mixture sh) in
          (Ok Continue, (say (Colorama.YELLOW +:+ result) (with_mixture m sh), h))
      | Raise _ =>
          (Ok Continue,
           (say (Colorama.RED +:+
                 "Invalid format. Use: edit archival [old_content] [new_content]")
                sh, h))
      end
    else if Py.startswith command "upload" then
      match unpack2 (split_max " " 1 user_input) with
      | Raise e => (Raise e, (sh, h))
      | Ok file_path =>
          match upload_document file_path (mixture sh, h) with
          | (Ok result, (m, h')) =>
              (Ok Continue,
               (say (Colorama.YELLOW +:+ result) (with_mixture m sh), h'))
          | (Raise e, (m, h')) =>
              (Ok Continue,
               (say (Colorama.RED +:+ "Error uploading document: " +:+ exn_str e)
                    (with_mixture m sh), h'))
          end
      end
    else if String.eqb command "clear core" then
      let '(result, m) := clear_core_memory (mixture sh) in
      (Ok Continue, (say (Colorama.YELLOW +:+ result) (with_mixture m sh), h))
    else question user_input (sh, h).

(** The loop of [main] over the lines that [input] returns, in order; at
    the end of the input [input] raises [EOFError]. *)
Fixpoint main_loop (lines : list string) : M (Shell * list Call) unit :=
  λ '(sh, h),
    let sh :=
      {| mixture := mixture sh; show_time := show_time sh;
         stdout := stdout sh ++
                   [Prompt (Colorama.GREEN +:+ Py.nl +:+ "You: " +:+
                            Colorama.RESET_ALL)] |} in
    match lines with
    | [] => (Raise (Exn OtherError "EOF when reading a line"), (sh, h))
    | raw :: lines' =>
        match main_step raw (sh, h) with
        | (Ok Break, st) => (Ok (), st)
        | (Ok Continue, st) => main_loop lines' st
        | (Raise e, st) => (Raise e, st)
        end
    end.

(** What the orchestrator can become: a new one, and what the methods and
    the shell make of one. *)
Inductive reachable : OllamaMixtureOfAgents → Prop :=
| reach_new reference_agents final_agent temperature max_tokens rounds stored :
    reachable (new_orchestrator reference_agents final_agent temperature
                 max_tokens rounds stored)
| reach_turn self input_message h :
    reachable self → reachable (get_response input_message (self, h)).2.1
| reach_search self query h :
    reachable self → reachable (search_archival_memory query (self, h)).2.1
| reach_add self content :
    reachable self → reachable (add_to_archival_memory content self).2
| reach_clear self :
    reachable self → reachable (clear_archival_memory self).2
| reach_edit self old_content new_content :
    reachable self →
    reachable (edit_archival_memory old_content new_content self).2
| reach_upload self file_path h :
    reachable self → reachable (upload_document file_path (self, h)).2.1
| reach_edit_core self section key value :
    reachable self → reachable (edit_core_memory section key value self).2
| reach_clear_core self :
    reachable self → reachable (clear_core_memory self).2
| reach_toggle self enabled :
    reachable self → reachable (toggle_web_search enabled self).2.

End ShellProgram.

(** *** Observations on texts *)

(** Every character of the text is white space. *)
Fixpoint all_space (s : string) : bool :=
  match s with
  | EmptyString => true
  | String c s' => Py.isspace c && all_space s'
  end.

(** The character occurs in the text. *)
Fixpoint has_char (c : ascii) (s : string) : bool :=
  match s with
  | EmptyString => false
  | String a s' => Ascii.eqb a c || has_char c s'
  end.

(** *** More scripted worlds *)
Module Worlds.

(** The scripted world with a completion function that answers [None]. *)
Definition mute : External := {|
  generate_with_references := λ _ _ _ _, None;
  DDGS_text := λ _ _, [];
  use_config := use_config_unbound;
  fetch_url := λ _ _, Ok None;
  extract := λ _ _ _, Ok None;
  json_loads := Scenario.scripted_loads;
  json_dumps := Scenario.scripted_dumps;
  py_repr := λ _, "None";
  retrieve_documents := λ chunks _ k, take (Z.to_nat k) (omap id chunks);
  clear_documents_raises := λ _, None;
  dumps_core_memory := λ _, "{}";
  read_text := λ _ _, Ok "first chunk";
  pdf_pages := λ _ _, Ok [];
  csv_rows := λ _ _, Ok [];
  split_text := λ s, [s]
|}.

(** The scripted world with a parser that knows two lists: [good] has two
    queries, [mixed] has a query and a bare string. *)
Definition parsing : External := {|
  generate_with_references := Scenario.scripted_completion;
  DDGS_text := λ _ _, [];
  use_config := use_config_unbound;
  fetch_url := λ _ _, Ok None;
  extract := λ _ _ _, Ok None;
  json_loads := λ s,
    let item q := JObject [("query", JString q); ("type", JString "related")] in
    if String.eqb s "good" then Ok (JArray [item "sunspots"; item "aurora"])
    else if String.eqb s "mixed" then Ok (JArray [item "sunspots"; JString "aurora"])
    else Scenario.scripted_loads s;
  json_dumps := Scenario.scripted_dumps;
  py_repr := λ _, "None";
  retrieve_documents := λ chunks _ k, take (Z.to_nat k) (omap id chunks);
  clear_documents_raises := λ _, None;
  dumps_core_memory := λ _, "{}";
  read_text := λ _ _, Ok "first chunk";
  pdf_pages := λ _ _, Ok [];
  csv_rows := λ _ _, Ok [];
  split_text := λ s, [s]
|}.

(** The scripted world with an index whose [clear_documents] raises and
    removes nothing. *)
Definition unclearable : External := {|
  generate_with_references := Scenario.scripted_completion;
  DDGS_text := λ _ _, [];
  use_config := use_config_unbound;
  fetch_url := λ _ _, Ok None;
  extract := λ _ _ _, Ok None;
  json_loads := Scenario.scripted_loads;
  json_dumps := Scenario.scripted_dumps;
  py_repr := λ _, "None";
  retrieve_documents := λ chunks _ k, take (Z.to_nat k) (omap id chunks);
  clear_documents_raises := λ chunks,
    Some (Exn OtherError "the collection cannot be deleted", chunks);
  dumps_core_memory := λ _, "{}";
  read_text := λ _ _, Ok "first chunk";
  pdf_pages := λ _ _, Ok [];
  csv_rows := λ _ _, Ok [];
  split_text := λ s, [s]
|}.


(** A clock that stands still. *)
#[export] Instance frozen : Console := {|
  time_time := λ _, PrimFloat.zero;
  format_2f := λ _, "0.00"
|}.

(** The shell at its start over an orchestrator. *)
Definition shell (m : OllamaMixtureOfAgents) : Shell :=
  {| mixture := m; show_time := false; stdout := [] |}.

End Worlds.

(** * Properties *)

(** ** Strings *)
Section Strings.

Lemma prefix_app (p s : string) : String.prefix p (p +:+ s) = true.
Proof.
  induction p as [|c p IH].
  - by destruct s.
  - change (String c p +:+ s) with (String c (p +:+ s)). cbn.
    rewrite IH. by destruct (ascii_dec c c).
Qed.

Lemma contains_unfold (sub s : string) :
  Py.contains sub s =
    String.prefix sub s ||
    match s with EmptyString => false | String _ s' => Py.contains sub s' end.
Proof. by destruct s. Qed.

Lemma partition_unfold (sep s : string) :
  Py.partition sep s =
    if String.prefix sep s
    then Some (EmptyString, Py.drop (String.length sep) s)
    else match s with
         | EmptyString => None
         | String c s' =>
             match Py.partition sep s' with
             | Some (b, a) => Some (String c b, a)
             | None => None
             end
         end.
Proof. by destruct s. Qed.

Lemma contains_prefix (sub s : string) :
  String.prefix sub s = true → Py.contains sub s = true.
Proof. intros Hp. by rewrite contains_unfold, Hp. Qed.

Lemma contains_app (sub s : string) : Py.contains sub (sub +:+ s) = true.
Proof. apply contains_prefix, prefix_app. Qed.

Lemma partition_contains (sep s : string) :
  Py.contains sep s = true → is_Some (Py.partition sep s).
Proof.
  induction s as [|c s IH]; rewrite contains_unfold, partition_unfold;
    destruct (String.prefix sep _) eqn:Hp; cbn; try done.
  intros [[b a] ->]%IH. done.
Qed.

Lemma partition_absent (sep s : string) :
  Py.contains sep s = false → Py.partition sep s = None.
Proof.
  induction s as [|c s IH]; rewrite contains_unfold, partition_unfold;
    destruct (String.prefix sep _) eqn:Hp; try done.
  cbn. intros Hs. by rewrite (IH Hs).
Qed.

(** Without the separator [split(sep, 1)] is the one-element list. *)
Lemma split1_absent (sep s : string) :
  Py.contains sep s = false → Py.split1 sep s = [s].
Proof. intros Hs. unfold Py.split1. by rewrite partition_absent. Qed.

Lemma lstrip_nonspace (c : ascii) (s : string) :
  Py.isspace c = false → Py.lstrip (String c s) = String c s.
Proof. intros Hc. cbn. by rewrite Hc. Qed.

Lemma rstrip_nonempty (c : ascii) (s : string) :
  Py.isspace c = false → Py.rstrip (String c s) ≠ "".
Proof. intros Hc. cbn. rewrite Hc. by destruct (Py.rstrip s). Qed.

(** A text that starts with a character that is no white space does not
    strip to the empty string. *)
Lemma strip_nonempty (c : ascii) (s : string) :
  Py.isspace c = false → Py.truthy (Py.strip (String c s)) = true.
Proof.
  intros Hc. unfold Py.strip. rewrite lstrip_nonspace by done.
  pose proof (rstrip_nonempty c s Hc).
  by destruct (Py.rstrip (String c s)).
Qed.

Lemma append_cons (c : ascii) (s x : string) :
  String c s +:+ x = String c (s +:+ x).
Proof. reflexivity. Qed.

Lemma append_assoc (s1 s2 s3 : string) :
  (s1 +:+ s2) +:+ s3 = s1 +:+ (s2 +:+ s3).
Proof.
  induction s1 as [|c s1 IH]; [done|]. by rewrite !append_cons, IH.
Qed.

Lemma append_empty_r (s : string) : s +:+ "" = s.
Proof.
  induction s as [|c s IH]; [done|]. by rewrite append_cons, IH.
Qed.

Lemma length_append (a b : string) :
  String.length (a +:+ b) = (String.length a + String.length b)%nat.
Proof.
  induction a as [|c a IH]; [done|].
  change (String c a +:+ b) with (String c (a +:+ b)). cbn. by rewrite IH.
Qed.

Lemma drop_append (p s : string) : Py.drop (String.length p) (p +:+ s) = s.
Proof.
  induction p as [|c p IH]; [done|].
  change (String c p +:+ s) with (String c (p +:+ s)). cbn. apply IH.
Qed.

(** A prefix of a text is a prefix of its beginning, when that is long
    enough. *)
Lemma prefix_shorter (p x y : string) :
  String.prefix p (x +:+ y) = true →
  (String.length p ≤ String.length x)%nat →
  String.prefix p x = true.
Proof.
  revert x. induction p as [|c p IH]; intros x; [by destruct x|].
  destruct x as [|a x]; [cbn; lia|].
  change (String a x +:+ y) with (String a (x +:+ y)). cbn.
  destruct (ascii_dec c a); [|done]. intros Hp Hl. apply IH; [done|lia].
Qed.

(** The first occurrence of a separator. The separator is [stem] and one
    character more; when it does not occur in [before +:+ stem], no
    occurrence begins inside [before], and [partition] cuts the text at the
    occurrence that follows [before]. *)
Lemma partition_first (stem : string) (c : ascii) (before rest : string) :
  Py.contains (stem +:+ String c "") (before +:+ stem) = false →
  Py.partition (stem +:+ String c "")
    (before +:+ (stem +:+ String c "") +:+ rest)
  = Some (before, rest).
Proof.
  induction before as [|a before IH]; intros Hc.
  - change ("" +:+ ?x) with x. by rewrite partition_unfold, prefix_app, drop_append.
  - change (String a before +:+ ?x) with (String a (before +:+ x)) in *.
    rewrite contains_unfold in Hc. apply orb_false_iff in Hc as [Hp Hc].
    rewrite partition_unfold.
    destruct (String.prefix _ (String a (before +:+ (stem +:+ String c "") +:+ rest)))
      eqn:Hp'.
    + exfalso.
      assert (Hx : String a (before +:+ (stem +:+ String c "") +:+ rest)
                   = String a (before +:+ stem) +:+ (String c "" +:+ rest)).
      { change (String a (before +:+ stem) +:+ ?x) with (String a ((before +:+ stem) +:+ x)).
        by rewrite !append_assoc. }
      rewrite Hx in Hp'. apply prefix_shorter in Hp'; [congruence|].
      cbn [String.length]. rewrite !length_append. cbn. lia.
    + by rewrite (IH Hc).
Qed.
End Strings.

(** ** Computations *)
Section Effects.
Context {S : Type}.

Lemma run_bind {A B} (m : M S A) (k : A → M S B) (s : S) :
  (m ≫= k) s =
    match m s with
    | (Ok a, s') => k a s'
    | (Raise e, s') => (Raise e, s')
    end.
Proof. reflexivity. Qed.

Lemma run_ret {A} (a : A) (s : S) : mret (M := M S) a s = (Ok a, s).
Proof. reflexivity. Qed.

Lemma preserves_ret {A} (R : relation S) `{!Reflexive R} (a : A) :
  preserves R (mret a : M S A).
Proof. intros s. cbn. reflexivity. Qed.

Lemma preserves_bind {A B} (R : relation S) `{!Transitive R}
    (m : M S A) (k : A → M S B) :
  preserves R m → (∀ a, preserves R (k a)) → preserves R (m ≫= k).
Proof.
  intros Hm Hk s. rewrite run_bind. specialize (Hm s).
  destruct (m s) as [[a|e] s']; cbn in *; [|done].
  transitivity s'; [done|apply Hk].
Qed.

End Effects.

Global Instance extends_preorder (P : Call → Prop) : PreOrder (extends P).
Proof.
  split.
  - intros h. exists []. by rewrite app_nil_r.
  - intros h1 h2 h3 (d1 & -> & H1) (d2 & -> & H2).
    exists (d1 ++ d2). rewrite app_assoc. split; [done|by apply Forall_app].
Qed.

Lemma extends_weaken (P Q : Call → Prop) (h h' : list Call) :
  (∀ c, P c → Q c) → extends P h h' → extends Q h h'.
Proof.
  intros HPQ (d & -> & Hd). exists d. split; [done|].
  eapply Forall_impl; eauto.
Qed.

Lemma extends_one (P : Call → Prop) (h : list Call) (c : Call) :
  P c → extends P h (h ++ [c]).
Proof. intros Hc. exists [c]. split; [done|by apply Forall_singleton]. Qed.

(** ** The web augmentation *)
Section Web.
Context `{External}.

(** [get_website_content_from_url] raises nothing: whatever the fetch and
    the extraction do, the URL gets a notice or a block. *)
Lemma get_website_content_total (url : string) (h : list Call) :
  ∃ info pages,
    get_website_content_from_url url h = (Ok info, h ++ pages) ∧
    Forall is_page pages ∧ website_text url info.
Proof.
  assert (Hnil : ∀ info, website_text url info →
            ∃ info' pages, (Ok info, h) = (Ok info', h ++ pages) ∧
              Forall is_page pages ∧ website_text url info').
  { intros info Hi. exists info, []. by rewrite app_nil_r. }
  assert (Hone : ∀ info, website_text url info →
            ∃ info' pages,
              (Ok info, h ++ [CallFetch url]) = (Ok info', h ++ pages) ∧
              Forall is_page pages ∧ website_text url info').
  { intros info Hi. exists info, [CallFetch url]. repeat split; auto. }
  assert (Htwo : ∀ downloaded info, website_text url info →
            ∃ info' pages,
              (Ok info, (h ++ [CallFetch url]) ++ [CallExtract downloaded url])
              = (Ok info', h ++ pages) ∧
              Forall is_page pages ∧ website_text url info').
  { intros downloaded info Hi.
    exists info, [CallFetch url; CallExtract downloaded url].
    rewrite <- app_assoc. repeat split; auto. }
  unfold get_website_content_from_url, website_try.
  rewrite run_bind. unfold of_result at 1.
  destruct use_config as [[]|e0];
    [|case_decide; apply Hnil; constructor].
  rewrite run_bind. unfold do_fetch at 1.
  destruct (fetch_url h url) as [[downloaded|]|e1];
    [|apply Hone; constructor|case_decide; apply Hone; constructor].
  rewrite run_bind. unfold do_extract at 1.
  destruct (extract (h ++ [CallFetch url]) downloaded url) as [[result|]|e2];
    [|apply Htwo; constructor|case_decide; apply Htwo; constructor].
  destruct (Py.truthy result); [|apply Htwo; constructor].
  rewrite run_bind. unfold of_result at 1.
  destruct (json_loads result) as [result_dict|e3];
    [|case_decide; apply Htwo; constructor].
  rewrite run_bind. unfold of_result at 1.
  destruct (dict_items result_dict) as [items|e4];
    [|case_decide; apply Htwo; constructor].
  destruct (json_truthy _); apply Htwo; constructor.
Qed.

(** The loop of [search_web]: one text for each result, in order. *)
Lemma search_loop_total (urls : list string) (acc : string) (h : list Call) :
  ∃ infos pages,
    for_each (λ result_string href,
                web_info ← get_website_content_from_url href;
                mret (result_string +:+ (web_info +:+ Py.nl +:+ Py.nl)))
             urls acc h
    = (Ok (foldl (λ result_string web_info,
                    result_string +:+ (web_info +:+ Py.nl +:+ Py.nl))
                 acc infos),
       h ++ pages) ∧
    Forall is_page pages ∧ Forall2 website_text urls infos.
Proof.
  revert acc h. induction urls as [|url urls IH]; intros acc h.
  - exists [], []. rewrite app_nil_r. by repeat split.
  - cbn [for_each]. rewrite !run_bind.
    destruct (get_website_content_total url h) as (info & p1 & -> & Hp1 & Hi).
    rewrite run_ret.
    destruct (IH (acc +:+ (info +:+ Py.nl +:+ Py.nl)) (h ++ p1))
      as (infos & p2 & -> & Hp2 & His).
    exists (info :: infos), (p1 ++ p2). rewrite app_assoc.
    split; [done|]. split; [by apply Forall_app|by constructor].
Qed.

(** [search_web] raises nothing; it asks the search engine once and then
    only fetches and extracts pages. *)
Lemma search_web_total (search_query : string) (h : list Call) :
  ∃ infos pages,
    search_web search_query h
    = (Ok (if Py.truthy (Py.strip (joined infos))
           then success_marker +:+ Py.nl +:+ Py.nl +:+ joined infos
           else no_results),
       h ++ CallSearch search_query :: pages) ∧
    Forall is_page pages ∧
    Forall2 website_text (DDGS_text h search_query) infos.
Proof.
  unfold search_web. rewrite run_bind. unfold do_search at 1.
  rewrite run_bind.
  destruct (search_loop_total (DDGS_text h search_query) ""
              (h ++ [CallSearch search_query]))
    as (infos & pages & -> & Hp & Hi).
  exists infos, pages. fold (joined infos). rewrite <- app_assoc.
  by destruct (Py.truthy _).
Qed.




(** The search on the raw input: the flag and the prompt change exactly
    when the search is enabled and its result carries the marker. *)
Lemma direct_augmentation_run (self : OllamaMixtureOfAgents)
    (input_message : string) (web_search_performed : bool)
    (final_prompt : list Message) (h : list Call) :
  ∃ search_results d,
    (search_web input_message h).1 = Ok search_results ∧
    direct_augmentation self input_message web_search_performed final_prompt h
    = (Ok (if web_search_enabled self
              && Py.contains success_marker search_results
           then (true,
                 final_prompt ++
                   [Msg "system"
                      ("Web Search Results:" +:+ Py.nl +:+ search_results)])
           else (web_search_performed, final_prompt)),
       h ++ d) ∧
    Forall (λ c, is_page c || is_search c) d.
Proof.
  destruct (search_web_total input_message h) as (infos & pages & Hs & Hp & _).
  unfold direct_augmentation. rewrite Hs. cbn [fst].
  destruct (web_search_enabled self); cbn [andb].
  - eexists _, _. split; [done|]. rewrite run_bind, Hs.
    split; [by destruct (Py.contains success_marker _)|].
    constructor; [done|]. eapply Forall_impl; [exact Hp|]. by intros [].
  - eexists _, []. rewrite app_nil_r. by repeat split.
Qed.

End Web.

(** ** The agent *)
Section Agent.
Context `{External}.

(** Where the marker occurs the query is defined: the indices [1] and [0]
    are in range. *)
Lemma search_query_of_total (response : string) :
  Py.contains search_trigger response = true →
  ∃ search_query, search_query_of response = Ok search_query.
Proof.
  intros [[before rest] Hp]%partition_contains.
  unfold search_query_of, Py.split1. rewrite Hp. cbn.
  destruct (Py.partition "]" rest) as [[q after]|]; by eexists.
Qed.

(** Without a closing delimiter the query is all the text after the
    marker. *)
Lemma search_query_of_unclosed (response before rest : string) :
  Py.partition search_trigger response = Some (before, rest) →
  Py.contains "]" rest = false →
  search_query_of response = Ok (Py.strip rest).
Proof.
  intros Hp Hc. unfold search_query_of, Py.split1.
  rewrite Hp. cbn. by rewrite (partition_absent "]" rest Hc).
Qed.

(** With a closing delimiter the query is the text between the first
    marker and the first delimiter after it, stripped. *)
Lemma search_query_of_terminated (before q after : string) :
  Py.contains "[SEARCH:" (before +:+ "[SEARCH") = false →
  Py.contains "]" q = false →
  search_query_of (before +:+ "[SEARCH:" +:+ q +:+ "]" +:+ after)
  = Ok (Py.strip q).
Proof.
  intros Hb Hq.
  pose proof (partition_first "[SEARCH" ":" before (q +:+ "]" +:+ after) Hb)
    as Hp1.
  assert (Hq' : Py.contains ("" +:+ "]") (q +:+ "") = false)
    by (by rewrite append_empty_r).
  pose proof (partition_first "" "]" q after Hq') as Hp2.
  change ("[SEARCH" +:+ ":") with "[SEARCH:" in Hp1.
  change ("" +:+ "]") with "]" in Hp2.
  unfold search_query_of, Py.split1, search_trigger.
  rewrite Hp1. cbn. by rewrite Hp2.
Qed.

(** One run of [generate_response], by the first answer of the completion
    function. *)
Lemma generate_response_run (self : OllamaAgent) (message : string)
    (h : list Call) :
  let h1 := h ++ [CallComplete (model self) (first_messages self message) None] in
  match generate_with_references h (model self) (first_messages self message) None with
  | Some r =>
      if Py.contains search_trigger r then
        ∃ search_query search_results pages,
          search_query_of r = Ok search_query ∧
          search_web search_query h1
          = (Ok search_results, h1 ++ CallSearch search_query :: pages) ∧
          Forall is_page pages ∧
          let h2 := h1 ++ CallSearch search_query :: pages in
          let messages :=
            second_messages self message r search_query search_results in
          generate_response self message h
          = (with_flag
               (canonical_json
                  (generate_with_references h2 (model self) messages None))
               true,
             h2 ++ [CallComplete (model self) messages None])
      else
        generate_response self message h
        = (with_flag (canonical_json (Some r)) false, h1)
  | None =>
      generate_response self message h
      = (with_flag (canonical_json None) false, h1)
  end.
Proof.
  intros h1.
  assert (Hstart : ∀ A (k : option string → M (list Call) A),
            (do_complete (model self) (first_messages self message) None ≫= k) h
            = k (generate_with_references h (model self)
                   (first_messages self message) None) h1) by done.
  unfold generate_response. fold (first_messages self message).
  rewrite Hstart. clear Hstart.
  destruct (generate_with_references h _ _ None) as [r|] eqn:Hr.
  - destruct (Py.contains search_trigger r) eqn:Hc.
    + destruct (search_query_of_total r Hc) as [q Hq].
      destruct (search_web_total q h1) as (infos & pages & Hs & Hp & _).
      eexists q, _, pages. split; [done|]. split; [exact Hs|]. split; [done|].
      rewrite !run_bind, Hq. unfold of_result at 1. cbv beta iota.
      rewrite run_bind, Hs. cbv beta iota.
      rewrite run_bind. unfold do_complete at 1. cbv beta iota.
      rewrite run_ret, run_bind.
      unfold second_messages, of_result.
      by destruct (canonical_json _).
    + rewrite run_bind, run_ret, run_bind. unfold of_result.
      by destruct (canonical_json _).
  - rewrite run_bind, run_ret, run_bind. unfold of_result. by cbn.
Qed.

Lemma searches_app (d1 d2 : list Call) :
  searches (d1 ++ d2) = searches d1 ++ searches d2.
Proof. apply omap_app. Qed.

Lemma completions_app (d1 d2 : list Call) :
  completions (d1 ++ d2) = completions d1 ++ completions d2.
Proof. apply omap_app. Qed.

Lemma pages_no_search (pages : list Call) :
  Forall is_page pages → searches pages = [] ∧ completions pages = [].
Proof.
  induction 1 as [|c pages Hc _ [IH1 IH2]]; [done|].
  destruct c; try done; cbn; by rewrite ?IH1, ?IH2.
Qed.

(** The calls of one run of an agent are completions, searches and page
    fetches. *)
Lemma generate_response_extends (self : OllamaAgent) (message : string) :
  preserves (extends (λ c, negb (is_retrieve c))) (generate_response self message).
Proof.
  intros h. pose proof (generate_response_run self message h) as Hrun.
  cbv zeta in Hrun.
  destruct (generate_with_references h _ _ None) as [r|].
  - destruct (Py.contains search_trigger r).
    + destruct Hrun as (q & sr & pages & _ & _ & Hp & ->). cbn [snd].
      rewrite <- !app_assoc. eexists. split; [done|].
      constructor; [done|]. constructor; [done|].
      apply Forall_app. split; [|by constructor].
      eapply Forall_impl; [exact Hp|]. by intros [].
    + rewrite Hrun. by apply extends_one.
  - rewrite Hrun. by apply extends_one.
Qed.

(** C4. When the first answer of the completion function contains the
    search marker, one run of [generate_response] makes exactly one web
    search and exactly one more completion call. The query of the search is
    the text between the first marker and the first closing delimiter after
    it, without the white space around it. The message list of the second
    call is the first one with the answer and the search results after it.
    What the second answer says plays no part: the calls are the same
    whether or not it contains a marker again, and the flag is [true]. *)
Theorem generate_response_one_search_round (self : OllamaAgent)
    (message : string) (h : list Call) (r : string) :
  generate_with_references h (model self)
    [Msg "system" (system_prompt self); Msg "user" message] None
    = Some r →
  Py.contains "[SEARCH:" r = true →
  ∃ search_query search_results pages second,
    (∀ before q after,
       r = before +:+ "[SEARCH:" +:+ q +:+ "]" +:+ after →
       Py.contains "[SEARCH:" (before +:+ "[SEARCH") = false →
       Py.contains "]" q = false →
       search_query = Py.strip q) ∧
    Forall is_page pages ∧
    let first :=
      CallComplete (model self)
        [Msg "system" (system_prompt self); Msg "user" message] None in
    let messages :=
      [Msg "system" (system_prompt self); Msg "user" message;
       Msg "assistant" r;
       Msg "user"
         ("Here are the search results for '" +:+ search_query +:+ "':" +:+
          Py.nl +:+ Py.nl +:+ search_results +:+ Py.nl +:+ Py.nl +:+
          "Please provide an updated response based on this information.")] in
    let d := [first; CallSearch search_query] ++ pages ++
             [CallComplete (model self) messages None] in
    search_web search_query (h ++ [first])
      = (Ok search_results, h ++ [first; CallSearch search_query] ++ pages) ∧
    second = generate_with_references
               (h ++ [first; CallSearch search_query] ++ pages)
               (model self) messages None ∧
    generate_response self message h
      = (with_flag (canonical_json second) true, h ++ d) ∧
    searches d = [search_query] ∧
    completions d
      = [[Msg "system" (system_prompt self); Msg "user" message]; messages].
Proof.
  intros Hr Hc. pose proof (generate_response_run self message h) as Hrun.
  cbv zeta in Hrun. unfold first_messages in Hrun.
  change search_trigger with "[SEARCH:" in Hrun. rewrite Hr, Hc in Hrun.
  destruct Hrun as (q & sr & pages & Hq & Hs & Hp & Hrun).
  exists q, sr, pages. eexists. split.
  { intros before q' after -> Hb Hq'.
    rewrite (search_query_of_terminated before q' after Hb Hq') in Hq.
    by injection Hq as <-. }
  split; [done|]. cbv zeta.
  split; [by rewrite Hs, <- app_assoc|].
  split; [reflexivity|].
  split.
  - rewrite Hrun. by rewrite <- !app_assoc.
  - destruct (pages_no_search pages Hp) as [Hss Hcs]. cbn [app].
    change (CallComplete ?m ?ms None :: CallSearch q :: pages ++ ?l)
      with ([CallComplete m ms None; CallSearch q] ++ pages ++ l).
    by rewrite !searches_app, !completions_app, Hss, Hcs.
Qed.

(** C8, as the code has it. The search round is triggered by the marker
    alone: a response without the marker makes no search, a response with
    the marker makes one search whether or not a closing delimiter
    follows, and without a closing delimiter the query is all the text
    after the marker, stripped. The flag of the agent says whether the
    marker occurred. *)
Theorem search_round_iff_marker (self : OllamaAgent) (message : string)
    (h : list Call) (r : string) :
  generate_with_references h (model self) (first_messages self message) None
    = Some r →
  ∃ d,
    (generate_response self message h).2 = h ++ d ∧
    (if Py.contains search_trigger r
     then ∃ search_query,
            search_query_of r = Ok search_query ∧ searches d = [search_query]
     else searches d = []) ∧
    (∀ before rest,
       Py.partition search_trigger r = Some (before, rest) →
       Py.contains "]" rest = false →
       searches d = [Py.strip rest]) ∧
    (∀ text flag,
       (generate_response self message h).1 = Ok (text, flag) →
       flag = Py.contains search_trigger r).
Proof.
  intros Hr. pose proof (generate_response_run self message h) as Hrun.
  cbv zeta in Hrun. rewrite Hr in Hrun.
  assert (Hflag : ∀ x b text flag,
            with_flag x b = Ok (text, flag) → flag = b).
  { intros [t|e] b text flag; cbn; congruence. }
  destruct (Py.contains search_trigger r) eqn:Hc.
  - destruct Hrun as (q & sr & pages & Hq & _ & Hp & Hrun).
    destruct (pages_no_search pages Hp) as [Hs _].
    set (d := [CallComplete (model self) (first_messages self message) None]
                ++ [CallSearch q] ++ pages ++
                [CallComplete (model self)
                   (second_messages self message r q sr) None]).
    exists d. rewrite Hrun. cbn [snd].
    split; [by rewrite <- !app_assoc|].
    assert (Hd : searches d = [q]).
    { unfold d. by rewrite !searches_app, Hs. }
    split; [by exists q|]. split.
    + intros before rest Hpart Hrest. rewrite Hd.
      rewrite (search_query_of_unclosed r before rest Hpart Hrest) in Hq.
      by injection Hq as <-.
    + intros text flag. cbn [fst]. apply Hflag.
  - rewrite Hrun. eexists. split; [done|]. split; [done|]. split.
    + intros before rest Hpart _.
      by rewrite (partition_absent _ _ Hc) in Hpart.
    + intros text flag. cbn [fst]. apply Hflag.
Qed.

End Agent.

(** ** The turn *)
Section Turn.
Context `{External}.

Lemma run_lift {A} (m : M (list Call) A) (self : OllamaMixtureOfAgents)
    (h : list Call) :
  lift m (self, h) = ((m h).1, (self, (m h).2)).
Proof. cbn. by destruct (m h). Qed.

(** Appending chunks to a prompt keeps what the prompt had. *)
Lemma deduplicated_prefix (documents : list string) (prompt : string) :
  ∃ ctx,
    foldl (λ prompt doc,
             if negb (Py.contains doc prompt)
             then prompt +:+ (doc +:+ Py.nl +:+ Py.nl)
             else prompt)
          prompt documents = prompt +:+ ctx.
Proof.
  revert prompt. induction documents as [|doc documents IH]; intros prompt.
  - exists "". by rewrite append_empty_r.
  - cbn [foldl]. destruct (negb _); [|apply IH].
    destruct (IH (prompt +:+ (doc +:+ Py.nl +:+ Py.nl))) as [ctx ->].
    eexists. apply append_assoc.
Qed.

Lemma documents_prefix (documents : list string) (prompt : string) :
  ∃ ctx,
    foldl (λ prompt doc, prompt +:+ (doc +:+ Py.nl +:+ Py.nl))
          prompt documents = prompt +:+ ctx.
Proof.
  revert prompt. induction documents as [|doc documents IH]; intros prompt.
  - exists "". by rewrite append_empty_r.
  - cbn [foldl].
    destruct (IH (prompt +:+ (doc +:+ Py.nl +:+ Py.nl))) as [ctx ->].
    eexists. apply append_assoc.
Qed.

Lemma extension_loop_run (self : OllamaMixtureOfAgents)
    (items : list QueryItem) (prompt : string) (h : list Call) :
  ∃ ctx,
    for_each (λ prompt query_item,
                documents ← do_retrieve self (query query_item) (retrieval_k self);
                mret (foldl (λ prompt doc,
                               if negb (Py.contains doc prompt)
                               then prompt +:+ (doc +:+ Py.nl +:+ Py.nl)
                               else prompt)
                            prompt documents))
             items prompt h
    = (Ok (prompt +:+ ctx),
       h ++ ((λ query_item, CallRetrieve (query query_item) (retrieval_k self))
               <$> items)).
Proof.
  revert prompt h. induction items as [|item items IH]; intros prompt h.
  - exists "". cbn. by rewrite append_empty_r, app_nil_r.
  - cbn [for_each]. rewrite !run_bind. unfold do_retrieve at 1.
    cbv beta iota. rewrite run_ret.
    destruct (deduplicated_prefix
                (retrieve_documents (rag self) (query item) (retrieval_k self))
                prompt) as [c1 ->].
    destruct (IH (prompt +:+ c1) (h ++ [CallRetrieve (query item) (retrieval_k self)]))
      as [c2 ->].
    exists (c1 +:+ c2). by rewrite append_assoc, <- app_assoc.
Qed.

(** [retrieve_context] raises nothing, and its prompt is the header, the
    chunks and the question. *)
Lemma retrieve_context_run (self : OllamaMixtureOfAgents)
    (input_message : string) (extension : QueryExtension) (h : list Call) :
  ∃ ctx,
    retrieve_context self input_message extension h
    = (Ok (context_header +:+ ctx +:+ question_footer input_message),
       h ++ retrieval_calls self input_message extension).
Proof.
  unfold retrieve_context. rewrite run_bind. unfold do_retrieve at 1.
  cbv beta iota. rewrite run_bind.
  set (p := match retrieve_documents _ _ _ with [] => _ | _ => _ end).
  assert (∃ c0, p = context_header +:+ c0) as [c0 ->].
  { unfold p. destruct (retrieve_documents _ _ _) as [|doc docs]; [by eexists|].
    apply documents_prefix. }
  destruct (extension_loop_run self (queries extension)
              (context_header +:+ c0)
              (h ++ [CallRetrieve input_message (retrieval_k self)]))
    as [c1 ->].
  exists (c0 +:+ c1). rewrite run_ret. unfold retrieval_calls.
  by rewrite !append_assoc, <- app_assoc.
Qed.

(** From the extension agent's output on the turn raises nothing: it
    retrieves, calls the synthesis agent once and commits its answer. *)
Lemma finish_turn_run (input_message : string) (web_search_performed : bool)
    (extension_output : string) (self : OllamaMixtureOfAgents)
    (h : list Call) :
  ∃ ctx,
    let prompt := context_header +:+ ctx +:+ question_footer input_message in
    let h1 := h ++ retrieval_calls self input_message
                     (parse_query_extension extension_output) in
    let final_response :=
      generate_with_references h1 (model (final_agent self))
        (synthesis_prompt self prompt)
        (Some (temperature self, max_tokens self)) in
    retrieve_context self input_message
      (parse_query_extension extension_output) h = (Ok prompt, h1) ∧
    finish_turn input_message web_search_performed extension_output (self, h)
    = (Ok (final_response, web_search_performed),
       (update_memory final_response assistant self,
        h1 ++ [synthesis_call self prompt])).
Proof.
  destruct (retrieve_context_run self input_message
              (parse_query_extension extension_output) h) as [ctx Hr].
  exists ctx. cbv zeta. split; [done|].
  unfold finish_turn. rewrite run_bind. cbn [get_self].
  rewrite run_bind, run_lift, Hr. cbn [fst snd].
  rewrite run_bind, run_lift. unfold do_complete. cbn [fst snd].
  by rewrite run_bind.
Qed.

(** [get_response] from the gathered results on. *)
Lemma respond_run (input_message : string)
    (results : list (option string * bool)) (self : OllamaMixtureOfAgents)
    (h : list Call) :
  match fan_in results with
  | ([], _) =>
      respond input_message results (self, h)
      = (Ok (Some all_failed_message, false), (self, h))
  | (_, web_search_performed) =>
      ∃ search_results d,
        (search_web input_message h).1 = Ok search_results ∧
        Forall (λ c, is_page c || is_search c) d ∧
        let flag :=
          if web_search_enabled self
             && Py.contains success_marker search_results
          then true else web_search_performed in
        match generate_response (query_extension_agent self)
                ("Consider the following query: " +:+ input_message) (h ++ d)
        with
        | (Ok (extension_output, _), h') =>
            respond input_message results (self, h)
            = finish_turn input_message flag extension_output (self, h')
        | (Raise e, h') =>
            respond input_message results (self, h) = (Raise e, (self, h'))
        end
  end.
Proof.
  unfold respond. rewrite run_bind. cbn [get_self].
  destruct (fan_in results) as [[|reference references] wsp]; [done|].
  destruct (direct_augmentation_run self input_message wsp
              (first_final_prompt self input_message (reference :: references)) h)
    as (search_results & d & Hs & Hd & Hp).
  exists search_results, d. split; [done|]. split; [done|]. cbv zeta.
  rewrite run_bind, run_lift, Hd. cbn [fst snd].
  destruct (web_search_enabled self && Py.contains success_marker search_results);
    rewrite run_bind, run_lift;
    destruct (generate_response _ _ (h ++ d)) as [[[out b]|e] h']; done.
Qed.

Lemma get_response_run (input_message : string)
    (self : OllamaMixtureOfAgents) (h : list Call) :
  let self1 := update_memory (Some input_message) user self in
  get_response input_message (self, h)
  = match gather (reference_agents self) input_message h with
    | (Ok results, h1) =>
        respond input_message (gathered results) (self1, h1)
    | (Raise e, h1) => (Raise e, (self1, h1))
    end.
Proof.
  cbv zeta. unfold get_response. rewrite run_bind. cbn [modify_self].
  rewrite run_bind. cbn [get_self]. rewrite run_bind, run_lift.
  change (reference_agents (update_memory _ _ self)) with (reference_agents self).
  by destruct (gather _ _ h) as [[results|e] h1].
Qed.

(** The loop over the queries of the extension, in closed form. *)
Lemma extension_loop_closed (self : OllamaMixtureOfAgents)
    (items : list QueryItem) (prompt : string) (h : list Call) :
  for_each (λ prompt query_item,
              documents ← do_retrieve self (query query_item) (retrieval_k self);
              mret (foldl (λ prompt doc,
                             if negb (Py.contains doc prompt)
                             then prompt +:+ (doc +:+ Py.nl +:+ Py.nl)
                             else prompt)
                          prompt documents))
           items prompt h
  = (Ok (foldl (λ prompt item,
                  foldl (λ prompt doc,
                           if negb (Py.contains doc prompt)
                           then prompt +:+ (doc +:+ Py.nl +:+ Py.nl)
                           else prompt)
                        prompt
                        (retrieve_documents (rag self) (query item)
                           (retrieval_k self)))
               prompt items),
     h ++ ((λ query_item, CallRetrieve (query query_item) (retrieval_k self))
             <$> items)).
Proof.
  revert prompt h. induction items as [|item items IH]; intros prompt h.
  - cbn. by rewrite app_nil_r.
  - cbn [for_each foldl]. rewrite !run_bind. unfold do_retrieve at 1.
    cbv beta iota. rewrite run_ret, IH. cbn [fmap list_fmap].
    by rewrite <- app_assoc.
Qed.

(** [retrieve_context] raises nothing; its prompt is the assembled one and
    its requests are the one for the input and one for each query. *)
Lemma retrieve_context_closed (self : OllamaMixtureOfAgents)
    (input_message : string) (extension : QueryExtension) (h : list Call) :
  retrieve_context self input_message extension h
  = (Ok (assembled_prompt
           (λ q, retrieve_documents (rag self) q (retrieval_k self))
           input_message (queries extension)),
     h ++ retrieval_calls self input_message extension).
Proof.
  unfold retrieve_context. rewrite run_bind. unfold do_retrieve at 1.
  cbv beta iota. rewrite run_bind, extension_loop_closed, run_ret.
  unfold assembled_prompt, retrieval_calls, context_header, question_footer.
  rewrite <- app_assoc. cbn [app].
  by destruct (retrieve_documents (rag self) input_message (retrieval_k self)).
Qed.

(** From the extension agent's output on, in closed form. *)
Lemma finish_turn_closed (input_message : string) (web_search_performed : bool)
    (extension_output : string) (self : OllamaMixtureOfAgents)
    (h : list Call) :
  let extension := parse_query_extension extension_output in
  let prompt :=
    assembled_prompt (λ q, retrieve_documents (rag self) q (retrieval_k self))
      input_message (queries extension) in
  let h1 := h ++ retrieval_calls self input_message extension in
  let final_response :=
    generate_with_references h1 (model (final_agent self))
      (synthesis_prompt self prompt)
      (Some (temperature self, max_tokens self)) in
  finish_turn input_message web_search_performed extension_output (self, h)
  = (Ok (final_response, web_search_performed),
     (update_memory final_response assistant self,
      h1 ++ [synthesis_call self prompt])).
Proof.
  cbv zeta. unfold finish_turn. rewrite run_bind. cbn [get_self].
  rewrite run_bind, run_lift, retrieve_context_closed. cbn [fst snd].
  rewrite run_bind, run_lift. unfold do_complete. cbn [fst snd].
  by rewrite run_bind.
Qed.

(** The search on the raw input, with the history it leaves. *)
Lemma direct_augmentation_closed (self : OllamaMixtureOfAgents)
    (input_message : string) (web_search_performed : bool)
    (final_prompt : list Message) (h : list Call) :
  ∃ search_results,
    (search_web input_message h).1 = Ok search_results ∧
    direct_augmentation self input_message web_search_performed final_prompt h
    = (Ok (if web_search_enabled self
              && Py.contains success_marker search_results
           then (true,
                 final_prompt ++
                   [Msg "system"
                      ("Web Search Results:" +:+ Py.nl +:+ search_results)])
           else (web_search_performed, final_prompt)),
       if web_search_enabled self then (search_web input_message h).2 else h).
Proof.
  destruct (search_web_total input_message h) as (infos & pages & Hs & _ & _).
  unfold direct_augmentation. rewrite Hs. cbn [fst snd].
  eexists. split; [done|].
  destruct (web_search_enabled self); cbn [andb]; [|done].
  rewrite run_bind, Hs. by destruct (Py.contains success_marker _).
Qed.

(** [get_response] from the gathered results on, with the history at the
    call of the extension agent. *)
Lemma respond_closed (input_message : string)
    (results : list (option string * bool)) (self : OllamaMixtureOfAgents)
    (h : list Call) :
  let h2 :=
    if web_search_enabled self then (search_web input_message h).2 else h in
  match fan_in results with
  | ([], _) =>
      respond input_message results (self, h)
      = (Ok (Some all_failed_message, false), (self, h))
  | (_, web_search_performed) =>
      ∃ search_results,
        (search_web input_message h).1 = Ok search_results ∧
        let flag :=
          if web_search_enabled self
             && Py.contains success_marker search_results
          then true else web_search_performed in
        match generate_response (query_extension_agent self)
                ("Consider the following query: " +:+ input_message) h2
        with
        | (Ok (extension_output, _), h3) =>
            respond input_message results (self, h)
            = finish_turn input_message flag extension_output (self, h3)
        | (Raise e, h3) =>
            respond input_message results (self, h) = (Raise e, (self, h3))
        end
  end.
Proof.
  cbv zeta. unfold respond. rewrite run_bind. cbn [get_self].
  destruct (fan_in results) as [[|reference references] wsp]; [done|].
  destruct (direct_augmentation_closed self input_message wsp
              (first_final_prompt self input_message (reference :: references)) h)
    as (search_results & Hs & Hd).
  exists search_results. split; [done|]. cbv zeta.
  rewrite run_bind, run_lift, Hd. cbn [fst snd].
  destruct (web_search_enabled self && Py.contains success_marker search_results);
    rewrite run_bind, run_lift;
    destruct (generate_response _ _ _) as [[[out b]|e] h3]; done.
Qed.

Lemma fan_in_failed (results : list (option string * bool)) :
  Forall (λ r, failed r.1) results → (fan_in results).1 = [].
Proof.
  intros Hall. unfold fan_in. generalize false as w.
  induction Hall as [|[response sp] results Hf _ IH]; intros w; [done|].
  cbn [foldl]. destruct response as [r|]; cbn in Hf.
  - unfold usable. rewrite Hf. apply IH.
  - apply IH.
Qed.

Lemma quiet_retrieves_with (K : Z) (c : Call) :
  negb (is_retrieve c) → retrieves_with K c.
Proof. by destruct c. Qed.

Lemma web_retrieves_with (K : Z) (c : Call) :
  is_page c || is_search c → retrieves_with K c.
Proof. by destruct c. Qed.

Lemma gather_extends (agents : list OllamaAgent) (message : string) :
  preserves (extends (λ c, negb (is_retrieve c))) (gather agents message).
Proof.
  induction agents as [|agent agents IH]; cbn [gather].
  - apply preserves_ret, _.
  - apply preserves_bind; [apply _|apply generate_response_extends|].
    intros r. apply preserves_bind; [apply _|done|].
    intros rs. apply preserves_ret, _.
Qed.

(** What [get_response] does from the gathered results on: the abort when
    no reference is left; otherwise an exception of the extension agent
    that leaves the orchestrator as it is, or the synthesis call as the
    last call and the commit of its answer. *)
Lemma respond_outcome (input_message : string)
    (results : list (option string * bool)) (self : OllamaMixtureOfAgents)
    (h : list Call) :
  let out := respond input_message results (self, h) in
  extends (retrieves_with (retrieval_k self)) h out.2.2 ∧
  match (fan_in results).1 with
  | [] => out = (Ok (Some all_failed_message, false), (self, h))
  | _ =>
      match out.1 with
      | Ok (final_response, _) =>
          out.2.1 = update_memory final_response assistant self ∧
          ∃ ctx extension h2 h3,
            let prompt :=
              context_header +:+ ctx +:+ question_footer input_message in
            retrieve_context self input_message extension h2
              = (Ok prompt, h3) ∧
            out.2.2 = h3 ++ [synthesis_call self prompt]
      | Raise _ => out.2.1 = self
      end
  end.
Proof.
  cbv zeta. pose proof (respond_run input_message results self h) as Hrun.
  destruct (fan_in results) as [[|reference references] wsp]; cbn [fst].
  { rewrite Hrun. split; [reflexivity|done]. }
  destruct Hrun as (search_results & d & _ & Hd & Hrun). cbv zeta in Hrun.
  pose proof (generate_response_extends (query_extension_agent self)
                ("Consider the following query: " +:+ input_message) (h ++ d))
    as Hext.
  destruct (generate_response _ _ (h ++ d)) as [[[out b]|e] h'];
    rewrite Hrun; cbn [snd] in Hext.
  - destruct (finish_turn_run input_message
                (if web_search_enabled self
                    && Py.contains success_marker search_results
                 then true else wsp) out self h') as (ctx & Hr & ->).
    cbn [fst snd]. split; [|split; [done|by eexists _, _, _, _]].
    transitivity (h ++ d).
    { exists d. split; [done|].
      eapply Forall_impl; [exact Hd|]. apply web_retrieves_with. }
    transitivity h'.
    { eapply extends_weaken; [|exact Hext]. apply quiet_retrieves_with. }
    eexists. split; [by rewrite <- app_assoc|].
    apply Forall_app. split; [|by repeat constructor].
    constructor; [done|]. apply Forall_fmap, Forall_true. done.
  - cbn [fst snd]. split; [|done].
    transitivity (h ++ d).
    { exists d. split; [done|].
      eapply Forall_impl; [exact Hd|]. apply web_retrieves_with. }
    eapply extends_weaken; [|exact Hext]. apply quiet_retrieves_with.
Qed.

(** One turn, by what the fan-out gives. *)
Lemma get_response_outcome (input_message : string)
    (self : OllamaMixtureOfAgents) (h : list Call) :
  let self1 := update_memory (Some input_message) user self in
  let out := get_response input_message (self, h) in
  extends (retrieves_with (retrieval_k self)) h out.2.2 ∧
  match gather (reference_agents self) input_message h with
  | (Raise e, h1) => out = (Raise e, (self1, h1))
  | (Ok results, h1) =>
      match (fan_in (gathered results)).1 with
      | [] => out = (Ok (Some all_failed_message, false), (self1, h1))
      | _ =>
          match out.1 with
          | Ok (final_response, _) =>
              out.2.1 = update_memory final_response assistant self1 ∧
              ∃ ctx extension h2 h3,
                let prompt :=
                  context_header +:+ ctx +:+ question_footer input_message in
                retrieve_context self1 input_message extension h2
                  = (Ok prompt, h3) ∧
                out.2.2 = h3 ++ [synthesis_call self1 prompt]
          | Raise _ => out.2.1 = self1
          end
      end
  end.
Proof.
  cbv zeta. rewrite get_response_run. cbv zeta.
  pose proof (gather_extends (reference_agents self) input_message h) as Hg.
  destruct (gather _ _ h) as [[results|e] h1]; cbn [snd] in Hg.
  - destruct (respond_outcome input_message (gathered results)
                (update_memory (Some input_message) user self) h1)
      as [Hext Hout].
    split; [|exact Hout].
    transitivity h1; [|exact Hext].
    eapply extends_weaken; [|exact Hg]. apply quiet_retrieves_with.
  - split; [|done]. cbn [snd].
    eapply extends_weaken; [|exact Hg]. apply quiet_retrieves_with.
Qed.

(** C1, as the code has it. A turn whose fan-out returns adds one chunk to
    the archival index when it aborts at the fan-in, the user's message,
    which is ingested before the fan-out; it adds two chunks when it
    completes, the user's message and the assistant's answer; and it adds
    the user's message alone when the extension agent raises. *)
Theorem turn_archival_growth (input_message : string)
    (self : OllamaMixtureOfAgents) (h h1 : list Call)
    (results : list (string * bool)) :
  gather (reference_agents self) input_message h = (Ok results, h1) →
  let out := get_response input_message (self, h) in
  match (fan_in (gathered results)).1 with
  | [] =>
      out.1 = Ok (Some all_failed_message, false) ∧
      length (rag out.2.1) = (length (rag self) + 1)%nat
  | _ =>
      match out.1 with
      | Ok _ => length (rag out.2.1) = (length (rag self) + 2)%nat
      | Raise _ => length (rag out.2.1) = (length (rag self) + 1)%nat
      end
  end.
Proof.
  intros Hg. cbv zeta.
  destruct (get_response_outcome input_message self h) as [_ Hout].
  cbv zeta in Hout. rewrite Hg in Hout.
  destruct (fan_in (gathered results)).1 as [|reference references].
  - rewrite Hout. cbn. split; [done|]. by rewrite length_app.
  - destruct (get_response input_message (self, h)).1 as [[final_response b]|e].
    + destruct Hout as [-> _]. cbn. rewrite !length_app. cbn. lia.
    + rewrite Hout. cbn. by rewrite length_app.
Qed.

(** C2. In every turn that completes, the last call is the synthesis
    call, and its message list has two messages: the synthesis agent's
    system prompt, and a user message that is the context header, the chunks
    the index found for the input message (or the notice that it found
    none), the chunks it found for each query of the extension that the
    prompt did not hold yet, and, after the delimiter, the question. The
    answer of the turn is the answer to that call. Nothing else enters the
    message list: it is the same for all outputs of the reference agents that
    leave a reference, and the result of the web search has no place in
    it. *)
Theorem synthesis_call_messages (input_message : string)
    (self : OllamaMixtureOfAgents) (h h1 : list Call)
    (results : list (string * bool)) (answer : option string * bool)
    (self' : OllamaMixtureOfAgents) (h' : list Call) :
  gather (reference_agents self) input_message h = (Ok results, h1) →
  (fan_in (gathered results)).1 ≠ [] →
  get_response input_message (self, h) = (Ok answer, (self', h')) →
  let h2 :=
    if web_search_enabled self then (search_web input_message h1).2 else h1 in
  ∃ extension_output searched h3,
    generate_response (query_extension_agent self)
      ("Consider the following query: " +:+ input_message) h2
    = (Ok (extension_output, searched), h3) ∧
    let k := Z.min 3 (Z.max 1 (document_count self)) in
    let found q := retrieve_documents (rag self ++ [Some input_message]) q k in
    let items := queries (parse_query_extension extension_output) in
    let prompt :=
      "Consider the following context:" +:+ Py.nl +:+
      "==========Context===========" +:+ Py.nl in
    let prompt :=
      match found input_message with
      | [] =>
          prompt +:+
          ("No relevant documents found in archival memory." +:+ Py.nl +:+ Py.nl)
      | documents =>
          foldl (λ prompt doc, prompt +:+ (doc +:+ Py.nl +:+ Py.nl))
                prompt documents
      end in
    let prompt :=
      foldl (λ prompt item,
               foldl (λ prompt doc,
                        if negb (Py.contains doc prompt)
                        then prompt +:+ (doc +:+ Py.nl +:+ Py.nl)
                        else prompt)
                     prompt (found (query item)))
            prompt items in
    let prompt :=
      prompt +:+ (Py.nl +:+ "======================" +:+ Py.nl +:+
                  "Question: " +:+ input_message) in
    let messages :=
      [Msg "system" (system_prompt (final_agent self)); Msg "user" prompt] in
    let requests :=
      CallRetrieve input_message k ::
      ((λ item, CallRetrieve (query item) k) <$> items) in
    let params := Some (temperature self, max_tokens self) in
    h' = h3 ++ requests ++
         [CallComplete (model (final_agent self)) messages params] ∧
    last (completions h') = Some messages ∧
    answer.1 = generate_with_references (h3 ++ requests)
                 (model (final_agent self)) messages params ∧
    ∀ results' : list (option string * bool),
      (fan_in results').1 ≠ [] →
      (respond input_message results'
         (update_memory (Some input_message) user self, h1)).2
      = (self', h').
Proof.
  intros Hg Href Hrun. cbv zeta.
  rewrite get_response_run in Hrun. cbv zeta in Hrun. rewrite Hg in Hrun.
  set (self1 := update_memory (Some input_message) user self) in *.
  pose proof (respond_closed input_message (gathered results) self1 h1) as Hc.
  cbv zeta in Hc.
  destruct (fan_in (gathered results)) as [[|reference references] wsp];
    [done|].
  destruct Hc as (sr & _ & Hc).
  change (web_search_enabled self1) with (web_search_enabled self) in Hc.
  change (query_extension_agent self1) with (query_extension_agent self) in Hc.
  destruct (generate_response (query_extension_agent self) _ _)
    as [[[out b]|e] h3] eqn:Hext; rewrite Hc in Hrun; [|done].
  rewrite finish_turn_closed in Hrun. cbv zeta in Hrun.
  injection Hrun as <- <- <-.
  exists out, b, h3. split; [done|].
  split; [by rewrite <- app_assoc|]. split.
  { rewrite completions_app. exact (last_snoc _ _). }
  split; [done|].
  intros results' Href'.
  pose proof (respond_closed input_message results' self1 h1) as Hc'.
  cbv zeta in Hc'.
  destruct (fan_in results') as [[|reference' references'] wsp']; [done|].
  destruct Hc' as (sr' & _ & Hc').
  change (web_search_enabled self1) with (web_search_enabled self) in Hc'.
  change (query_extension_agent self1) with (query_extension_agent self) in Hc'.
  rewrite Hext in Hc'. rewrite Hc', finish_turn_closed. done.
Qed.

(** C3. When every result of the fan-out is [None] or begins with the
    error prefix, [get_response] returns the error text with the flag
    [False]; of the memories only the ingestion of the user's message has
    happened, so the archival index and the event log hold nothing of an
    assistant turn. The fan-in of lines 270-278 does the same on every list
    of failed results, [None] among them. *)
Theorem all_failed_aborts (input_message : string)
    (self : OllamaMixtureOfAgents) (h h1 : list Call)
    (results : list (string * bool)) :
  gather (reference_agents self) input_message h = (Ok results, h1) →
  Forall (λ r, failed r.1) (gathered results) →
  ∃ self',
    get_response input_message (self, h)
      = (Ok (Some all_failed_message, false), (self', h1)) ∧
    Py.startswith all_failed_message "Error:" = true ∧
    rag self' = rag self ++ [Some input_message] ∧
    agent_event_memory self'
      = agent_event_memory self ++ [(user, Some input_message)] ∧
    ∀ results' : list (option string * bool),
      Forall (λ r, failed r.1) results' →
      respond input_message results' (self', h1)
        = (Ok (Some all_failed_message, false), (self', h1)).
Proof.
  intros Hg Hall.
  destruct (get_response_outcome input_message self h) as [_ Hout].
  cbv zeta in Hout. rewrite Hg, (fan_in_failed _ Hall) in Hout.
  eexists. split; [exact Hout|]. do 3 (split; [done|]).
  intros results' Hall'.
  pose proof (respond_run input_message results'
                (update_memory (Some input_message) user self) h1) as Hrun.
  pose proof (fan_in_failed _ Hall') as Hnil.
  by destruct (fan_in results') as [[|reference references] wsp].
Qed.

Lemma retrievals_app (d1 d2 : list Call) :
  retrievals (d1 ++ d2) = retrievals d1 ++ retrievals d2.
Proof. apply omap_app. Qed.

Lemma retrievals_calls (self : OllamaMixtureOfAgents) (input_message : string)
    (extension : QueryExtension) :
  retrievals (retrieval_calls self input_message extension)
  = (input_message, retrieval_k self) ::
    ((λ query_item, (query query_item, retrieval_k self)) <$> queries extension).
Proof.
  unfold retrieval_calls, retrievals. cbn. f_equal.
  induction (queries extension) as [|item items IH]; [done|].
  cbn. by rewrite IH.
Qed.

Lemma validate_items_spec (l : list json) (qs : list QueryItem) :
  validate_items l = Ok qs ↔ Forall2 (λ v q, validate_item v = Ok q) l qs.
Proof.
  revert qs. induction l as [|v l IH]; intros qs; cbn [validate_items].
  - split; [by intros [= <-]; constructor|by inversion 1].
  - split.
    + destruct (validate_item v) as [q|e] eqn:Hv; [|done].
      destruct (validate_items l) as [qs'|e] eqn:Hl; [|done].
      intros [= <-]. constructor; [done|]. by apply IH.
    + inversion 1 as [|v' q l' qs' Hv Hl]; subst.
      apply IH in Hl. by rewrite Hv, Hl.
Qed.





End Turn.

(** ** The memories *)
Section Memories.
Context `{External}.

Lemma add_splits_counts (splits : list string) (self : OllamaMixtureOfAgents) :
  document_count (add_splits splits self)
    = document_count self + Z.of_nat (length splits) ∧
  length (rag (add_splits splits self))
    = (length (rag self) + length splits)%nat.
Proof.
  unfold add_splits. revert self.
  induction splits as [|split splits IH]; intros self; cbn [foldl length].
  - split; [lia|done].
  - destruct (IH (set_document_count
                    (document_count (add_document (Some split) self) + 1)
                    (add_document (Some split) self))) as [-> ->].
    cbn. rewrite length_app. cbn. split; lia.
Qed.

(** The request of [search_archival_memory] is for five chunks, whatever
    the counter and the index hold. *)
Lemma search_archival_memory_run (query : string)
    (self : OllamaMixtureOfAgents) (h : list Call) :
  search_archival_memory query (self, h)
  = (Ok (retrieve_documents (rag self) query 5),
     (self, h ++ [CallRetrieve query 5])).
Proof. reflexivity. Qed.

Lemma get_response_self (input_message : string)
    (self : OllamaMixtureOfAgents) (h : list Call) :
  let self1 := update_memory (Some input_message) user self in
  let self' := (get_response input_message (self, h)).2.1 in
  self' = self1 ∨
  ∃ final_response, self' = update_memory final_response assistant self1.
Proof.
  cbv zeta.
  destruct (get_response_outcome input_message self h) as [_ Hout].
  cbv zeta in Hout.
  destruct (gather _ _ h) as [[results|e] h1]; [|rewrite Hout; by left].
  destruct (fan_in (gathered results)).1; [rewrite Hout; by left|].
  destruct (get_response input_message (self, h)).1 as [[final_response b]|e];
    [right; exists final_response; apply Hout|by left].
Qed.

(** The turn pipeline clamps: every request of a turn to the similarity
    index asks for [k = min(3, max(1, document_count))] chunks, with the
    orchestrator's counter: the request for the input message and the
    request for each query of the extension. The number lies between 1 and
    3, and it is 1 when the counter is 0. *)
Lemma pipeline_retrieval_k :
  (∀ input_message self h,
     extends (retrieves_with (Z.min 3 (Z.max 1 (document_count self))))
       h (get_response input_message (self, h)).2.2) ∧
  (∀ input_message web_search_performed extension_output self h,
     let k := Z.min 3 (Z.max 1 (document_count self)) in
     retrievals
       (finish_turn input_message web_search_performed extension_output
          (self, h)).2.2
     = retrievals h ++
       (input_message, k) ::
       ((λ query_item, (query query_item, k))
          <$> queries (parse_query_extension extension_output))) ∧
  (∀ self, 1 ≤ retrieval_k self ≤ 3) ∧
  (∀ self, retrieval_k (set_document_count 0 self) = Z.min 3 (Z.max 1 0)) ∧
  (∀ self, retrieval_k (set_document_count 0 self) = 1).
Proof.
  split; [|split; [|split; [|split]]].
  - intros input_message self h.
    apply (get_response_outcome input_message self h).
  - intros input_message wsp out self h.
    destruct (finish_turn_run input_message wsp out self h) as (ctx & _ & ->).
    cbn [snd]. by rewrite !retrievals_app, retrievals_calls, app_nil_r.
  - intros self. unfold retrieval_k. lia.
  - done.
  - done.
Qed.

(** C10, as the code has it. [get_response] leaves [document_count] as it
    was, however the turn ends: [update_memory] puts the message into the
    index and does not touch the counter. Every request of the turn to the
    index is for [min(3, max(1, document_count))] chunks, with the counter of
    before the turn. The counter moves with the index in
    [add_to_archival_memory], [edit_archival_memory] and [upload_document].
    [clear_archival_memory] sets it to 0 when the index's [clear_documents]
    returns; when that call raises, the method returns the error text and
    the counter is as it was. *)
Theorem document_count_frame :
  (∀ input_message self h,
     document_count (get_response input_message (self, h)).2.1
       = document_count self) ∧
  (∀ message role self,
     document_count (update_memory message role self) = document_count self ∧
     rag (update_memory message role self) = rag self ++ [message]) ∧
  (∀ input_message self h,
     extends (retrieves_with (Z.min 3 (Z.max 1 (document_count self))))
       h (get_response input_message (self, h)).2.2) ∧
  (∀ content self,
     let self' := (add_to_archival_memory content self).2 in
     document_count self' - document_count self
       = Z.of_nat (length (rag self')) - Z.of_nat (length (rag self))) ∧
  (∀ old_content new_content self,
     let self' := (edit_archival_memory old_content new_content self).2 in
     document_count self' = document_count self + 1 ∧
     rag self' = rag self ++ [Some new_content]) ∧
  (∀ file_path self h,
     let self' := (upload_document file_path (self, h)).2.1 in
     document_count self' - document_count self
       = Z.of_nat (length (rag self')) - Z.of_nat (length (rag self))) ∧
  (∀ self,
     let out := clear_archival_memory self in
     match clear_documents_raises (rag self) with
     | None =>
         out.1 = "Archival memory cleared successfully." ∧
         document_count out.2 = 0 ∧ rag out.2 = []
     | Some (e, kept) =>
         out.1 = "Error clearing archival memory: " +:+ exn_str e ∧
         document_count out.2 = document_count self ∧ rag out.2 = kept
     end).
Proof.
  split; [|split; [|split; [|split; [|split; [|split]]]]].
  - intros input_message self h.
    by destruct (get_response_self input_message self h) as [->|[fr ->]].
  - done.
  - intros input_message self h.
    apply (get_response_outcome input_message self h).
  - intros content self. unfold add_to_archival_memory.
    destruct (Py.truthy _); cbn; [rewrite length_app; cbn|]; lia.
  - done.
  - intros file_path self h. unfold upload_document.
    destruct (upload_read file_path h) as [[[ext|content]|e] h']; cbn [fst snd];
      [lia| |lia].
    destruct (negb _); cbn [fst snd]; [lia|].
    destruct (add_splits_counts (split_text content) self) as [-> ->]. lia.
  - intros self. cbv zeta. unfold clear_archival_memory, clear_documents.
    by destruct (clear_documents_raises (rag self)) as [[e kept]|].
Qed.

(** C9. From the empty document of three sections, the edit of [tone]
    in [persona] leaves the document with that one entry, in the
    orchestrator, in the library object and in what [load_core_memory]
    returns; [clear_core_memory] brings the empty document back in all
    three; and an edit of a section the document does not have makes that
    section, with the one entry, and leaves the other sections alone. *)
Theorem core_memory_edit_load_clear :
  (∀ self,
     core_memory self = empty_core_memory →
     let self' := (edit_core_memory "persona" "tone" "formal" self).2 in
     let edited : gmap string (gmap string string) :=
       <["persona" := {["tone" := "formal"]}]>
         (<["user" := ∅]> (<["scratchpad" := ∅]> ∅)) in
     load_core_memory self' = edited ∧ core_memory self' = edited ∧
     agent_core_memory self' = edited) ∧
  (∀ self,
     let self' := (clear_core_memory self).2 in
     let empty : gmap string (gmap string string) :=
       <["persona" := ∅]> (<["user" := ∅]> (<["scratchpad" := ∅]> ∅)) in
     load_core_memory self' = empty ∧ core_memory self' = empty ∧
     agent_core_memory self' = empty) ∧
  (∀ section key value self,
     core_memory self !! section = None →
     let self' := (edit_core_memory section key value self).2 in
     core_memory self' !! section = Some {[key := value]} ∧
     load_core_memory self' = core_memory self' ∧
     ∀ other, other ≠ section →
              core_memory self' !! other = core_memory self !! other).
Proof.
  split; [|split].
  - intros self Hd. cbv zeta. unfold edit_core_memory, load_core_memory.
    cbn. rewrite Hd. split; [|split]; by vm_compute.
  - done.
  - intros section key value self Hs. cbv zeta.
    unfold edit_core_memory, load_core_memory. cbn.
    rewrite decide_True by done.
    split; [|split; [done|]].
    + by rewrite lookup_alter_eq, lookup_insert_eq.
    + intros other Ho. by rewrite lookup_alter_ne, lookup_insert_ne.
Qed.

End Memories.

(** ** Runs in the scripted world *)
Section Runs.
Import Scenario.

Example validate_one_item :
  model_validate
    [("queries",
      JArray [JObject [("query", JString "sunspot cycle"); ("type", JString "related")]])]
  = Ok {| queries := [{| query := "sunspot cycle"; type := "related" |}] |}.
Proof. reflexivity. Qed.

Example validate_rejects_strings :
  or_empty (model_validate [("queries", JArray [JString "sunspot cycle"])])
  = {| queries := [] |}.
Proof. reflexivity. Qed.

(** The marker with its terminator: the query is the text between them. *)
Example solar_query :
  search_query_of "[SEARCH: solar flares]" = Ok "solar flares".
Proof. reflexivity. Qed.

(** The page fetcher of the module as it stands: the notice with the
    [NameError], and no fetch. *)
Example website_as_it_stands :
  get_website_content_from_url "https://example.org/a" []
  = (Ok "An error occurred while processing https://example.org/a: name 'use_config' is not defined",
     []).
Proof. reflexivity. Qed.

(** With [use_config] bound: a page that cannot be fetched and a page
    without content get their notices, and the batch goes on to the third
    page. *)
Example search_past_failures :
  search_web (H := bound) "solar flares" []
  = (Ok (success_marker +:+ Py.nl +:+ Py.nl +:+
         joined ["Failed to fetch content from https://example.org/down";
                 "No content could be extracted from https://example.org/blank";
                 website_block "Flares" "https://example.org/a" "Eruptions."]),
     [CallSearch "solar flares";
      CallFetch "https://example.org/down";
      CallFetch "https://example.org/blank";
      CallExtract "https://example.org/blank" "https://example.org/blank";
      CallFetch "https://example.org/a";
      CallExtract "https://example.org/a" "https://example.org/a"]).
Proof. by vm_compute. Qed.

(** A search without results gives the sentinel. *)
Example search_without_results :
  (search_web "nothing" []).1 = Ok no_results.
Proof. reflexivity. Qed.

(** A turn that completes: the index grows by the user's message and the
    answer. *)
Lemma turn_archival_growth_witness :
  let h1 := (gather (reference_agents analyst_team) "hi" []).2 in
  gather (reference_agents analyst_team) "hi" [] = (Ok analyst_results, h1) ∧
  let out := get_response "hi" (analyst_team, []) in
  match (fan_in (gathered analyst_results)).1 with
  | [] =>
      out.1 = Ok (Some all_failed_message, false) ∧
      length (rag out.2.1) = (length (rag analyst_team) + 1)%nat
  | _ =>
      match out.1 with
      | Ok _ => length (rag out.2.1) = (length (rag analyst_team) + 2)%nat
      | Raise _ => length (rag out.2.1) = (length (rag analyst_team) + 1)%nat
      end
  end.
Proof.
  split; [by vm_compute|].
  apply (turn_archival_growth "hi" analyst_team []
           (gather (reference_agents analyst_team) "hi" []).2 analyst_results).
  by vm_compute.
Defined.

(** C1 as it is stated fails on an aborted turn: the index has one chunk
    more, not none. *)
Lemma aborted_turn_adds_a_chunk :
  let out := get_response "hi" (failing_team, []) in
  out.1 = Ok (Some all_failed_message, false) ∧
  length (rag out.2.1) ≠ (length (rag failing_team) + 0)%nat.
Proof. by vm_compute. Qed.

(** The turn of the analyst team: the index finds the user's message, the
    extension agent gives no query, and the synthesis call carries the
    system prompt and the context with the question. *)
Lemma synthesis_call_messages_witness :
  let out := get_response "hi" (analyst_team, []) in
  let h1 := (gather (reference_agents analyst_team) "hi" []).2 in
  gather (reference_agents analyst_team) "hi" [] = (Ok analyst_results, h1) ∧
  (fan_in (gathered analyst_results)).1 ≠ [] ∧
  out = (Ok (Some "Final answer.", true), (out.2.1, out.2.2)) ∧
  last (completions out.2.2)
  = Some [Msg "system" "You are synth.";
          Msg "user"
            ("Consider the following context:" +:+ Py.nl +:+
             "==========Context===========" +:+ Py.nl +:+
             "hi" +:+ Py.nl +:+ Py.nl +:+
             Py.nl +:+ "======================" +:+ Py.nl +:+
             "Question: hi")].
Proof.
  cbv zeta.
  assert (Hg : gather (reference_agents analyst_team) "hi" []
               = (Ok analyst_results,
                  (gather (reference_agents analyst_team) "hi" []).2))
    by (by vm_compute).
  assert (Href : (fan_in (gathered analyst_results)).1 ≠ []) by done.
  assert (Hout : get_response "hi" (analyst_team, [])
                 = (Ok (Some "Final answer.", true),
                    ((get_response "hi" (analyst_team, [])).2.1,
                     (get_response "hi" (analyst_team, [])).2.2)))
    by (by vm_compute).
  split; [exact Hg|]. split; [exact Href|]. split; [exact Hout|].
  destruct (synthesis_call_messages "hi" analyst_team [] _ analyst_results
              _ _ _ Hg Href Hout)
    as (extension_output & searched & h3 & Hext & _ & Hlast & _).
  vm_compute in Hext. injection Hext as <- <- <-.
  vm_compute in Hlast. vm_compute. exact Hlast.
Defined.

(** The turn of the failing team aborts. *)
Lemma all_failed_aborts_witness :
  let h1 := (gather (reference_agents failing_team) "hi" []).2 in
  gather (reference_agents failing_team) "hi" [] = (Ok failing_results, h1) ∧
  Forall (λ r, failed r.1) (gathered failing_results) ∧
  ∃ self',
    get_response "hi" (failing_team, [])
      = (Ok (Some all_failed_message, false), (self', h1)) ∧
    Py.startswith all_failed_message "Error:" = true ∧
    rag self' = rag failing_team ++ [Some "hi"] ∧
    agent_event_memory self'
      = agent_event_memory failing_team ++ [(user, Some "hi")] ∧
    ∀ results' : list (option string * bool),
      Forall (λ r, failed r.1) results' →
      respond "hi" results' (self', h1)
        = (Ok (Some all_failed_message, false), (self', h1)).
Proof.
  cbv zeta.
  assert (Hg : gather (reference_agents failing_team) "hi" []
               = (Ok failing_results,
                  (gather (reference_agents failing_team) "hi" []).2))
    by (by vm_compute).
  assert (Hall : Forall (λ r, failed r.1) (gathered failing_results))
    by (by repeat constructor).
  split; [exact Hg|]. split; [exact Hall|].
  exact (all_failed_aborts "hi" failing_team [] _ failing_results Hg Hall).
Defined.

(** The searcher asks for a search in both of its answers: the one search
    is for the query of its first answer, and two completion calls are
    made. *)
Lemma generate_response_one_search_round_witness :
  generate_with_references [] (model (agent "searcher"))
    [Msg "system" (system_prompt (agent "searcher")); Msg "user" "hi"] None
    = Some solar_request ∧
  Py.contains "[SEARCH:" solar_request = true ∧
  Py.contains "[SEARCH:" second_request = true ∧
  solar_request
    = "I need data. " +:+ "[SEARCH:" +:+ " solar flares" +:+ "]" +:+
      " Please wait." ∧
  searches (generate_response (agent "searcher") "hi" []).2 = ["solar flares"] ∧
  length (completions (generate_response (agent "searcher") "hi" []).2) = 2%nat ∧
  (generate_response (agent "searcher") "hi" []).1 = Ok (second_request, true).
Proof.
  split; [reflexivity|]. split; [reflexivity|]. split; [reflexivity|].
  split; [reflexivity|].
  assert (Hr : generate_with_references [] (model (agent "searcher"))
                 [Msg "system" (system_prompt (agent "searcher")); Msg "user" "hi"]
                 None = Some solar_request) by reflexivity.
  assert (Hm : Py.contains "[SEARCH:" solar_request = true) by reflexivity.
  destruct (generate_response_one_search_round (agent "searcher") "hi" []
              solar_request Hr Hm)
    as (q & sr & pages & second & Hshape & _ & _ & _ & Hrun & Hs & Hc).
  specialize (Hshape "I need data. " " solar flares" " Please wait."
                eq_refl eq_refl eq_refl).
  cbv zeta in Hrun, Hs, Hc. rewrite Hrun. cbn [snd].
  split; [|split].
  - etransitivity; [exact Hs|]. by rewrite Hshape.
  - etransitivity; [exact (f_equal length Hc)|]. done.
  - rewrite <- Hrun. by vm_compute.
Defined.

(** The second answer of the searcher asks for a search again, and no
    second search is made. *)
Example searcher_run :
  generate_response (agent "searcher") "hi" []
  = (Ok (second_request, true),
     [CallComplete "searcher" (first_messages (agent "searcher") "hi") None;
      CallSearch "solar flares";
      CallComplete "searcher"
        (second_messages (agent "searcher") "hi" solar_request "solar flares"
           (success_marker +:+ Py.nl +:+ Py.nl +:+
            joined ["An error occurred while processing https://example.org/a: name 'use_config' is not defined"]))
        None]).
Proof. by vm_compute. Qed.

(** The answer with the marker and no closing delimiter. *)
Lemma search_round_iff_marker_witness :
  generate_with_references [] (model (agent "unclosed"))
    (first_messages (agent "unclosed") "hi") None = Some unclosed_request ∧
  ∃ d,
    (generate_response (agent "unclosed") "hi" []).2 = [] ++ d ∧
    (if Py.contains search_trigger unclosed_request
     then ∃ search_query,
            search_query_of unclosed_request = Ok search_query ∧
            searches d = [search_query]
     else searches d = []) ∧
    (∀ before rest,
       Py.partition search_trigger unclosed_request = Some (before, rest) →
       Py.contains "]" rest = false →
       searches d = [Py.strip rest]) ∧
    (∀ text flag,
       (generate_response (agent "unclosed") "hi" []).1 = Ok (text, flag) →
       flag = Py.contains search_trigger unclosed_request).
Proof.
  split; [reflexivity|].
  apply (search_round_iff_marker (agent "unclosed") "hi" [] unclosed_request).
  reflexivity.
Defined.

(** C8 as it is stated fails: a response with the marker and no closing
    delimiter triggers a search round. *)
Lemma unclosed_marker_triggers_search :
  Py.contains search_trigger unclosed_request = true ∧
  Py.contains "]" unclosed_request = false ∧
  (generate_response (agent "unclosed") "hi" []).1 = Ok ("Done.", true) ∧
  searches (generate_response (agent "unclosed") "hi" []).2 = ["solar flares"].
Proof. by vm_compute. Qed.

(** C5. The archival search does not clamp: whatever the counter and the
    index hold, [search_archival_memory] asks the index for five chunks. On
    a fresh orchestrator, with no chunk counted and an empty index, where
    the formula [min(3, max(1, 0))] gives one, it asks for five; a turn on
    such an orchestrator asks for one. *)
Theorem search_archival_memory_on_empty_index :
  (∀ query self h,
     search_archival_memory query (self, h)
     = (Ok (retrieve_documents (rag self) query 5),
        (self, h ++ [CallRetrieve query 5]))) ∧
  document_count (orchestrator []) = 0 ∧
  rag (orchestrator []) = [] ∧
  Z.min 3 (Z.max 1 (Z.of_nat (length (rag (orchestrator []))))) = 1 ∧
  Z.min 3 (Z.max 1 (document_count (orchestrator []))) = 1 ∧
  retrievals (search_archival_memory "solar flares" (orchestrator [], [])).2.2
    = [("solar flares", 5)] ∧
  document_count analyst_team = 0 ∧
  rag analyst_team = [] ∧
  retrievals (get_response "solar flares" (analyst_team, [])).2.2
    = [("solar flares", 1)].
Proof. split; [done|]. by vm_compute. Qed.



(** C10 as it is stated fails: when the index's [clear_documents] raises,
    [clear_archival_memory] returns the error text and the counter keeps
    its value. *)
Lemma failed_clear_keeps_the_counter :
  let self := (add_to_archival_memory "a note" (orchestrator [])).2 in
  let out := clear_archival_memory (H := Worlds.unclearable) self in
  document_count self = 1 ∧
  clear_documents_raises (External := Worlds.unclearable) (rag self)
  = Some (Exn OtherError "the collection cannot be deleted", rag self) ∧
  out.1 = "Error clearing archival memory: the collection cannot be deleted" ∧
  document_count out.2 = 1 ∧
  document_count out.2 ≠ 0 ∧
  rag out.2 = [Some "a note"].
Proof. by vm_compute. Qed.

(** The edit on a fresh orchestrator. *)
Lemma core_memory_edit_load_clear_witness :
  core_memory (orchestrator []) = empty_core_memory ∧
  let self' := (edit_core_memory "persona" "tone" "formal" (orchestrator [])).2 in
  let edited : gmap string (gmap string string) :=
    <["persona" := {["tone" := "formal"]}]>
      (<["user" := ∅]> (<["scratchpad" := ∅]> ∅)) in
  load_core_memory self' = edited ∧ core_memory self' = edited ∧
  agent_core_memory self' = edited.
Proof.
  split; [reflexivity|].
  apply (proj1 core_memory_edit_load_clear (orchestrator [])). reflexivity.
Defined.

(** The counter stays at 0 while the index grows: the second turn finds
    two chunks in the index and still asks for one. *)
Example second_turn_asks_for_one :
  let after_first := (get_response "hi" (analyst_team, [])).2.1 in
  rag after_first = [Some "hi"; Some "Final answer."] ∧
  document_count after_first = 0 ∧
  retrievals (get_response "more" (after_first, [])).2.2 = [("more", 1)].
Proof. by vm_compute. Qed.

(** The extension agent of the scripted world answers text that is no
    JSON: the collection is empty and the index is asked once. *)
Example analyst_turn_retrieves_once :
  retrievals (get_response "hi" (analyst_team, [])).2.2 = [("hi", 1)].
Proof. by vm_compute. Qed.

End Runs.

(** * More of the module *)

(** ** The agent and the web augmentation, case by case *)
Section AgentCases.
Context `{External}.

(** X1. An answer without the search marker makes the run one completion
    call and nothing else, with the flag [False]; text that is no JSON comes
    back as it is, JSON comes back re-serialised, and another exception of
    the parser is raised. *)
Theorem generate_response_without_marker (self : OllamaAgent)
    (message : string) (h : list Call) (r : string) :
  generate_with_references h (model self) (first_messages self message) None
    = Some r →
  Py.contains search_trigger r = false →
  generate_response self message h
  = (match json_loads r with
     | Ok json_response => Ok (json_dumps json_response, false)
     | Raise e =>
         if decide (exn_kind e = JSONDecodeError) then Ok (r, false)
         else Raise e
     end,
     h ++ [CallComplete (model self) (first_messages self message) None]).
Proof.
  intros Hr Hc. pose proof (generate_response_run self message h) as Hrun.
  cbv zeta in Hrun. rewrite Hr, Hc in Hrun. rewrite Hrun. cbn.
  destruct (json_loads r) as [j|e]; [done|]. by case_decide.
Qed.

(** X2. A first answer that is no string makes [generate_response] raise
    the [TypeError] of [json.loads], after the one completion call and
    without a search. *)
Theorem generate_response_not_a_string (self : OllamaAgent)
    (message : string) (h : list Call) :
  generate_with_references h (model self) (first_messages self message) None
    = None →
  ∃ e,
    generate_response self message h
    = (Raise e,
       h ++ [CallComplete (model self) (first_messages self message) None]) ∧
    exn_kind e = TypeError.
Proof.
  intros Hr. pose proof (generate_response_run self message h) as Hrun.
  cbv zeta in Hrun. rewrite Hr in Hrun. rewrite Hrun. by eexists.
Qed.

Lemma unbound_loop (urls : list string) (acc : string) (h : list Call) :
  use_config = use_config_unbound →
  (for_each (λ result_string href,
               web_info ← get_website_content_from_url href;
               mret (result_string +:+ (web_info +:+ Py.nl +:+ Py.nl)))
            urls acc h).2 = h.
Proof.
  intros Hu. revert acc. induction urls as [|url urls IH]; intros acc; [done|].
  cbn [for_each]. rewrite !run_bind.
  unfold get_website_content_from_url at 1, website_try.
  rewrite run_bind, Hu. cbn. apply IH.
Qed.

(** X3. In the module as it stands, with [use_config] unbound, no page is
    ever fetched: every URL gets the notice with the [NameError] and the
    history stays as it is, and a web search records the one call to the
    search engine and nothing more. *)
Theorem unbound_config_never_fetches (url search_query : string)
    (h : list Call) :
  use_config = use_config_unbound →
  get_website_content_from_url url h
  = (Ok ("An error occurred while processing " +:+ url +:+
         ": name 'use_config' is not defined"), h) ∧
  (search_web search_query h).2 = h ++ [CallSearch search_query].
Proof.
  intros Hu. split.
  - unfold get_website_content_from_url, website_try.
    rewrite run_bind, Hu. by cbn.
  - unfold search_web. rewrite run_bind. unfold do_search at 1.
    rewrite run_bind.
    pose proof (unbound_loop (DDGS_text h search_query) ""
                  (h ++ [CallSearch search_query]) Hu) as Hl.
    destruct (for_each _ _ _ _) as [[s|e] h']; cbn in Hl; subst h'; [|done].
    by destruct (Py.truthy _).
Qed.

(** X4. With [use_config] bound, each failure of a page has its notice and
    stops the work on that page: a page that cannot be fetched is not
    extracted; an exception of the fetcher gives the notice with its text;
    an extraction of nothing or of the empty string gives the notice of no
    content; a result that is no JSON gives the notice of the parse; a
    result that is JSON and no object gives the notice with the
    [AttributeError]. *)
Theorem website_failure_notices (url : string) (h : list Call) :
  use_config = Ok () →
  (fetch_url h url = Ok None →
   get_website_content_from_url url h
   = (Ok ("Failed to fetch content from " +:+ url), h ++ [CallFetch url])) ∧
  (∀ e, fetch_url h url = Raise e → exn_kind e ≠ JSONDecodeError →
   get_website_content_from_url url h
   = (Ok ("An error occurred while processing " +:+ url +:+ ": " +:+ exn_str e),
      h ++ [CallFetch url])) ∧
  (∀ downloaded result,
     fetch_url h url = Ok (Some downloaded) →
     extract (h ++ [CallFetch url]) downloaded url = Ok result →
     let h2 := h ++ [CallFetch url; CallExtract downloaded url] in
     (result = None ∨ result = Some "" →
      get_website_content_from_url url h = (Ok (no_content url), h2)) ∧
     (∀ r e, result = Some r → r ≠ "" → json_loads r = Raise e →
             exn_kind e = JSONDecodeError →
      get_website_content_from_url url h
      = (Ok ("Failed to parse content from " +:+ url), h2)) ∧
     (∀ r v, result = Some r → r ≠ "" → json_loads r = Ok v →
             (∀ items, v ≠ JObject items) →
      get_website_content_from_url url h
      = (Ok ("An error occurred while processing " +:+ url +:+ ": '" +:+
             py_type_name v +:+ "' object has no attribute 'get'"), h2))).
Proof.
  intros Hu.
  assert (Hnext : get_website_content_from_url url h
                  = match website_try url h with
                    | (Ok s, h') => (Ok s, h')
                    | (Raise e, h') =>
                        if decide (exn_kind e = JSONDecodeError)
                        then (Ok ("Failed to parse content from " +:+ url), h')
                        else (Ok ("An error occurred while processing " +:+
                                  url +:+ ": " +:+ exn_str e), h')
                    end) by done.
  assert (Hfetch : website_try url h
                   = (downloaded ← do_fetch url;
                      match downloaded with
                      | None => mret ("Failed to fetch content from " +:+ url)
                      | Some downloaded =>
                          result ← do_extract downloaded url;
                          match result with
                          | Some result =>
                              if Py.truthy result then
                                result_dict ← of_result (json_loads result);
                                items ← of_result (dict_items result_dict);
                                let title :=
                                  default (JString "No title found")
                                    (json_get "title" items) in
                                let content :=
                                  default
                                    (default (JString "No content extracted")
                                       (json_get "raw_text" items))
                                    (json_get "text" items) in
                                if json_truthy content
                                then mret (website_block (py_format title) url
                                             (py_format content))
                                else mret (no_content url)
                              else mret (no_content url)
                          | None => mret (no_content url)
                          end
                      end) h).
  { unfold website_try. rewrite run_bind, Hu. done. }
  rewrite Hnext, Hfetch. clear Hnext Hfetch.
  rewrite run_bind. unfold do_fetch.
  split; [|split].
  - by intros ->.
  - intros e -> Hk. by rewrite decide_False.
  - intros downloaded result -> He. cbv zeta beta iota.
    rewrite run_bind. unfold do_extract. rewrite He. cbv beta iota.
    rewrite <- app_assoc. cbn [app].
    split; [|split].
    + by intros [->| ->].
    + intros r e -> Hr Hj Hk. destruct r as [|a r]; [done|]. cbn [Py.truthy].
      rewrite run_bind, Hj. unfold of_result. by rewrite decide_True.
    + intros r v -> Hr Hj Hv. destruct r as [|a r]; [done|]. cbn [Py.truthy].
      rewrite run_bind, Hj. unfold of_result at 1. cbv beta iota.
      rewrite run_bind. unfold of_result, dict_items.
      destruct v; try done. by destruct (Hv kvs).
Qed.

(** X5. The keys of an extracted page: a missing title is [No title found];
    [raw_text] stands in for a missing [text] and not for an empty one, which
    gives the notice of no content; and a page with neither key gives a
    block, whose content is [No content extracted], and no notice. *)
Theorem website_block_defaults (url : string) (h : list Call)
    (downloaded r : string) (items : list (string * json)) :
  use_config = Ok () →
  fetch_url h url = Ok (Some downloaded) →
  extract (h ++ [CallFetch url]) downloaded url = Ok (Some r) →
  r ≠ "" →
  json_loads r = Ok (JObject items) →
  let title := py_format (default (JString "No title found")
                            (json_get "title" items)) in
  ((get_website_content_from_url url h).2
   = h ++ [CallFetch url; CallExtract downloaded url]) ∧
  (∀ c, json_get "text" items = Some (JString c) → c ≠ "" →
        (get_website_content_from_url url h).1
        = Ok (website_block title url c)) ∧
  (json_get "text" items = Some (JString "") →
   (get_website_content_from_url url h).1 = Ok (no_content url)) ∧
  (∀ c, json_get "text" items = None →
        json_get "raw_text" items = Some (JString c) → c ≠ "" →
        (get_website_content_from_url url h).1
        = Ok (website_block title url c)) ∧
  (json_get "text" items = None → json_get "raw_text" items = None →
   (get_website_content_from_url url h).1
   = Ok (website_block title url "No content extracted")).
Proof.
  intros Hu Hf He Hr Hj. cbv zeta.
  set (content := default (default (JString "No content extracted")
                             (json_get "raw_text" items))
                          (json_get "text" items)).
  assert (Hrun : get_website_content_from_url url h
                 = (Ok (if json_truthy content
                        then website_block
                               (py_format (default (JString "No title found")
                                             (json_get "title" items)))
                               url (py_format content)
                        else no_content url),
                    h ++ [CallFetch url; CallExtract downloaded url])).
  { unfold get_website_content_from_url, website_try.
    rewrite run_bind, Hu. unfold of_result at 1. cbv beta iota.
    rewrite run_bind. unfold do_fetch. rewrite Hf. cbv beta iota.
    rewrite run_bind. unfold do_extract. rewrite He. cbv beta iota.
    rewrite <- app_assoc. cbn [app].
    destruct r as [|a r]; [done|]. cbn [Py.truthy].
    rewrite run_bind, Hj. unfold of_result at 1. cbv beta iota.
    rewrite run_bind. unfold of_result, dict_items. cbv beta iota zeta.
    fold content. by destruct (json_truthy content). }
  rewrite Hrun. cbn [fst snd]. unfold content.
  split; [done|]. split; [|split; [|split]].
  - intros c -> Hc. cbn. by destruct c.
  - by intros ->.
  - intros c -> -> Hc. cbn. by destruct c.
  - by intros -> ->.
Qed.

End AgentCases.

(** ** The query extension, item by item *)
Section ExtensionCases.
Context `{External}.

(** X6. The validation of the queries is all or nothing: the collection has
    one query for each item of the list, in order, exactly when every item
    is an object with a string [query] and a string [type]; one item of
    another shape leaves the turn without any query of the extension. *)
Theorem validation_all_or_nothing (extension_output : string)
    (l : list json) :
  json_loads extension_output = Ok (JArray l) →
  (∀ qs, Forall2 (λ v q, validate_item v = Ok q) l qs →
         parse_query_extension extension_output = {| queries := qs |} ∧
         length qs = length l) ∧
  (Exists (λ v, ∀ q, validate_item v ≠ Ok q) l →
   parse_query_extension extension_output = {| queries := [] |}).
Proof.
  intros Hj. unfold parse_query_extension, extension_try. rewrite Hj.
  unfold model_validate.
  change (json_get "queries" [("queries", JArray l)]) with (Some (JArray l)).
  cbv beta iota.
  split.
  - intros qs Hqs. pose proof (Forall2_length _ _ _ Hqs) as Hlen.
    apply validate_items_spec in Hqs. by rewrite Hqs.
  - intros Hbad. destruct (validate_items l) as [qs|e] eqn:Hl; [|done].
    apply validate_items_spec in Hl. exfalso.
    apply Exists_exists in Hbad as (v & Hv & Hbad).
    apply list_elem_of_lookup in Hv as [i Hi].
    destruct (Forall2_lookup_l _ _ _ _ _ Hl Hi) as (q & _ & Hq).
    by apply (Hbad q).
Qed.

End ExtensionCases.

(** ** The turn, phase by phase *)
Section TurnCases.
Context `{External}.

Lemma fan_in_from (results : list (option string * bool))
    (references : list string) (flag : bool) :
  foldl (λ '(references, web_search_performed) '(response, search_performed),
           (if usable response
            then references ++ option_list response
            else references,
            web_search_performed || search_performed))
        (references, flag) results
  = (references ++
       omap (λ r : option string * bool, if usable r.1 then r.1 else None) results,
     flag || existsb snd results).
Proof.
  revert references flag.
  induction results as [|[response b] results IH]; intros references flag.
  - cbn. by rewrite app_nil_r, orb_false_r.
  - cbn [foldl]. rewrite IH. cbn [existsb snd fst].
    rewrite orb_assoc. f_equal.
    destruct response as [r|]; cbn; [|done].
    destruct (negb _); cbn; [|done]. by rewrite <- app_assoc.
Qed.

(** X7. The fan-in keeps the usable responses in the order of the agents,
    and its flag is true exactly when some agent searched, a dropped one
    too. *)
Theorem fan_in_closed_form (results : list (option string * bool)) :
  fan_in results
  = (omap (λ r : option string * bool, if usable r.1 then r.1 else None) results,
     existsb snd results).
Proof. unfold fan_in. by rewrite fan_in_from. Qed.

Lemma existsb_gathered (results : list (string * bool)) :
  existsb snd (gathered results) = existsb snd results.
Proof.
  unfold gathered.
  induction results as [|[r b] results IH]; [done|]. cbn. by rewrite IH.
Qed.

Lemma finish_turn_flag (input_message : string) (flag : bool)
    (extension_output : string) (self : OllamaMixtureOfAgents) (h : list Call) :
  ∃ final_response st,
    finish_turn input_message flag extension_output (self, h)
    = (Ok (final_response, flag), st).
Proof.
  destruct (finish_turn_run input_message flag extension_output self h)
    as (ctx & _ & ->). by eexists _, _.
Qed.

(** X8. The flag a completed turn returns is true exactly when a reference
    agent searched or the search on the raw input, when enabled, brought the
    success marker; a search of the extension agent does not count. *)
Theorem turn_flag (input_message : string) (self : OllamaMixtureOfAgents)
    (h h1 : list Call) (results : list (string * bool))
    (text : option string) (flag : bool)
    (st : OllamaMixtureOfAgents * list Call) :
  gather (reference_agents self) input_message h = (Ok results, h1) →
  (fan_in (gathered results)).1 ≠ [] →
  get_response input_message (self, h) = (Ok (text, flag), st) →
  ∃ search_results,
    (search_web input_message h1).1 = Ok search_results ∧
    flag = existsb snd results
           || (web_search_enabled self
               && Py.contains success_marker search_results).
Proof.
  intros Hg Href Hout. rewrite get_response_run in Hout. cbv zeta in Hout.
  rewrite Hg in Hout.
  pose proof (respond_run input_message (gathered results)
                (update_memory (Some input_message) user self) h1) as Hrun.
  unfold fan_in in Href, Hrun. rewrite fan_in_from in Href, Hrun.
  cbn [fst app orb] in Href, Hrun.
  destruct (omap _ (gathered results)) as [|reference references]; [done|].
  destruct Hrun as (sr & d & Hs & _ & Hrun). cbv zeta in Hrun.
  exists sr. split; [done|]. rewrite existsb_gathered in Hrun.
  change (web_search_enabled (update_memory _ _ self))
    with (web_search_enabled self) in Hrun.
  destruct (generate_response _ _ (h1 ++ d)) as [[[out b]|e] h'];
    rewrite Hrun in Hout; [|done].
  destruct (finish_turn_flag input_message
              (if web_search_enabled self && Py.contains success_marker sr
               then true else existsb snd results)
              out (update_memory (Some input_message) user self) h')
    as (fr & st' & Hfin).
  rewrite Hfin in Hout. injection Hout as _ <- _.
  destruct (web_search_enabled self && Py.contains success_marker sr);
    by rewrite ?orb_true_r, ?orb_false_r.
Qed.

(** X9. A completed turn puts the same two messages into the archival index
    and into the event log, the user's and after it the answer it returns. *)
Theorem turn_commits_both_memories (input_message : string)
    (self : OllamaMixtureOfAgents) (h h1 : list Call)
    (results : list (string * bool)) (text : option string) (flag : bool)
    (self' : OllamaMixtureOfAgents) (h' : list Call) :
  gather (reference_agents self) input_message h = (Ok results, h1) →
  (fan_in (gathered results)).1 ≠ [] →
  get_response input_message (self, h) = (Ok (text, flag), (self', h')) →
  rag self' = rag self ++ [Some input_message; text] ∧
  agent_event_memory self'
  = agent_event_memory self ++ [(user, Some input_message); (assistant, text)].
Proof.
  intros Hg Href Hout.
  destruct (get_response_outcome input_message self h) as [_ Hcase].
  cbv zeta in Hcase. rewrite Hg, Hout in Hcase. cbn [fst snd] in Hcase.
  destruct (fan_in (gathered results)).1; [done|].
  destruct Hcase as [-> _]. cbn. by rewrite <- !app_assoc.
Qed.

(** X10. Of the orchestrator a turn changes the archival index and the event
    log and nothing else: the core memory, its copy in the library and its
    file, the switch of the web search, the agents and the parameters of the
    synthesis stay as they are, however the turn ends. The index and the
    log grow by the user's message alone, or by the user's message and the
    answer the turn returns. *)
Theorem get_response_frame (input_message : string)
    (self : OllamaMixtureOfAgents) (h : list Call) :
  let out := get_response input_message (self, h) in
  let self' := out.2.1 in
  core_memory self' = core_memory self ∧
  agent_core_memory self' = agent_core_memory self ∧
  core_memory_file self' = core_memory_file self ∧
  web_search_enabled self' = web_search_enabled self ∧
  reference_agents self' = reference_agents self ∧
  final_agent self' = final_agent self ∧
  temperature self' = temperature self ∧
  max_tokens self' = max_tokens self ∧
  primary_model self' = primary_model self ∧
  ((rag self' = rag self ++ [Some input_message] ∧
    agent_event_memory self'
    = agent_event_memory self ++ [(user, Some input_message)]) ∨
   (∃ text flag,
      out.1 = Ok (text, flag) ∧
      rag self' = rag self ++ [Some input_message; text] ∧
      agent_event_memory self'
      = agent_event_memory self ++
        [(user, Some input_message); (assistant, text)])).
Proof.
  cbv zeta.
  destruct (get_response_outcome input_message self h) as [_ Hout].
  cbv zeta in Hout.
  assert (Hstay : ∀ r h1,
            get_response input_message (self, h)
            = (r, (update_memory (Some input_message) user self, h1)) →
            let self' := (get_response input_message (self, h)).2.1 in
            core_memory self' = core_memory self ∧
            agent_core_memory self' = agent_core_memory self ∧
            core_memory_file self' = core_memory_file self ∧
            web_search_enabled self' = web_search_enabled self ∧
            reference_agents self' = reference_agents self ∧
            final_agent self' = final_agent self ∧
            temperature self' = temperature self ∧
            max_tokens self' = max_tokens self ∧
            primary_model self' = primary_model self ∧
            ((rag self' = rag self ++ [Some input_message] ∧
              agent_event_memory self'
              = agent_event_memory self ++ [(user, Some input_message)]) ∨
             (∃ text flag,
                (get_response input_message (self, h)).1 = Ok (text, flag) ∧
                rag self' = rag self ++ [Some input_message; text] ∧
                agent_event_memory self'
                = agent_event_memory self ++
                  [(user, Some input_message); (assistant, text)]))).
  { intros r h1 ->. cbv zeta. repeat (split; [done|]). by left. }
  destruct (gather _ _ h) as [[results|e] h1]; [|by eapply Hstay].
  destruct (fan_in (gathered results)).1; [by eapply Hstay|].
  destruct (get_response input_message (self, h)) as [[[text flag]|e] [self' h']]
    eqn:Hrun; cbn [fst snd] in *.
  - destruct Hout as [-> _]. repeat (split; [done|]). right.
    exists text, flag. cbn. by rewrite <- !app_assoc.
  - subst self'. repeat (split; [done|]). by left.
Qed.

(** X11. While the counter does not exceed the number of chunks, a turn
    never asks the index for more chunks than it holds: each request is for
    at least one chunk and at most as many as the index has once the user's
    message is in it. *)
Theorem pipeline_k_within_index (input_message : string)
    (self : OllamaMixtureOfAgents) (h : list Call) :
  document_count self ≤ Z.of_nat (length (rag self)) →
  extends (λ c, match c with
                | CallRetrieve _ k =>
                    1 ≤ k ≤ Z.of_nat (length (rag self ++ [Some input_message]))
                | _ => True
                end)
          h (get_response input_message (self, h)).2.2.
Proof.
  intros Hc.
  destruct (get_response_outcome input_message self h) as [Hext _].
  cbv zeta in Hext. eapply extends_weaken; [|exact Hext].
  intros [] Hk; try done. cbn in Hk. subst k.
  unfold retrieval_k. rewrite length_app. cbn [length]. lia.
Qed.

Lemma prefix_app_l (p s x : string) :
  String.prefix p s = true → String.prefix p (s +:+ x) = true.
Proof.
  revert s. induction p as [|c p IH]; intros s; [by destruct s, x|].
  destruct s as [|a s]; [done|]. rewrite append_cons. cbn.
  destruct (ascii_dec c a); [apply IH|done].
Qed.

Lemma contains_app_l (sub s x : string) :
  Py.contains sub s = true → Py.contains sub (s +:+ x) = true.
Proof.
  induction s as [|a s IH]; rewrite contains_unfold.
  - rewrite orb_false_r. intros Hp.
    by apply contains_prefix, (prefix_app_l sub "" x).
  - intros [Hp|Hs]%orb_true_iff.
    + by apply contains_prefix, prefix_app_l.
    + rewrite append_cons, contains_unfold, (IH Hs). apply orb_true_r.
Qed.

Lemma contains_app_r (sub x y : string) :
  Py.contains sub (x +:+ (sub +:+ y)) = true.
Proof.
  induction x as [|a x IH]; [exact (contains_app sub y)|].
  rewrite append_cons, contains_unfold, IH. apply orb_true_r.
Qed.

Lemma documents_contained (documents : list string) (prompt : string) :
  Forall (λ doc,
            Py.contains doc
              (foldl (λ prompt doc, prompt +:+ (doc +:+ Py.nl +:+ Py.nl))
                     prompt documents) = true)
         documents.
Proof.
  revert prompt. induction documents as [|doc documents IH]; intros prompt;
    [done|].
  constructor; [|apply IH]. cbn [foldl].
  destruct (documents_prefix documents (prompt +:+ (doc +:+ Py.nl +:+ Py.nl)))
    as [ctx ->].
  apply contains_app_l, contains_app_r.
Qed.

Lemma deduplicated_nothing_new (documents : list string) (prompt : string) :
  Forall (λ doc, Py.contains doc prompt = true) documents →
  foldl (λ prompt doc,
           if negb (Py.contains doc prompt)
           then prompt +:+ (doc +:+ Py.nl +:+ Py.nl)
           else prompt)
        prompt documents = prompt.
Proof.
  induction 1 as [|doc documents Hd _ IH]; [done|].
  cbn [foldl]. by rewrite Hd.
Qed.

(** X12. A query of the extension that repeats the input message adds nothing
    to the context: its chunks are in the prompt already, and the prompt of
    the synthesis is the one of the input message alone. The index is asked
    all the same. *)
Theorem repeated_query_adds_nothing (self : OllamaMixtureOfAgents)
    (input_message : string) (extension : QueryExtension) (h : list Call) :
  Forall (λ query_item, query query_item = input_message) (queries extension) →
  (retrieve_context self input_message extension h).1
  = (retrieve_context self input_message {| queries := [] |} h).1 ∧
  (retrieve_context self input_message extension h).2
  = h ++ CallRetrieve input_message (retrieval_k self) ::
         replicate (length (queries extension))
           (CallRetrieve input_message (retrieval_k self)).
Proof.
  intros Hq. split.
  2:{ destruct (retrieve_context_run self input_message extension h) as [ctx ->].
      cbn [snd]. unfold retrieval_calls. f_equal. f_equal.
      induction Hq as [|item items Hi _ IH]; [done|]. cbn. by rewrite Hi, IH. }
  unfold retrieve_context. rewrite !run_bind. unfold do_retrieve at 1 3.
  cbv beta iota. rewrite !run_bind.
  set (documents := retrieve_documents (rag self) input_message (retrieval_k self)).
  set (p := match documents with [] => _ | _ => _ end).
  assert (Hin : Forall (λ doc, Py.contains doc p = true) documents).
  { unfold p. destruct documents as [|doc docs] eqn:Hd; [done|].
    rewrite <- Hd. apply documents_contained. }
  cbn [queries for_each]. rewrite run_ret.
  assert (Hloop : ∀ h0, ∃ h1,
             for_each (λ prompt query_item,
                         documents ← do_retrieve self (query query_item)
                                       (retrieval_k self);
                         mret (foldl (λ prompt doc,
                                        if negb (Py.contains doc prompt)
                                        then prompt +:+ (doc +:+ Py.nl +:+ Py.nl)
                                        else prompt)
                                     prompt documents))
                      (queries extension) p h0 = (Ok p, h1)).
  { induction Hq as [|item items Hi _ IH]; intros h0; [by eexists|].
    cbn [for_each]. rewrite run_bind, run_bind. unfold do_retrieve at 1.
    cbv beta iota. rewrite run_ret, Hi. fold documents.
    rewrite (deduplicated_nothing_new documents p Hin). apply IH. }
  destruct (Hloop (h ++ [CallRetrieve input_message (retrieval_k self)]))
    as [h1 ->].
  done.
Qed.

(** X25. An orchestrator without reference agents aborts every turn: it
    makes no call, returns the error of the failed agents, and keeps the
    user's message in its memories. *)
Theorem empty_team_aborts (input_message : string)
    (self : OllamaMixtureOfAgents) (h : list Call) :
  reference_agents self = [] →
  get_response input_message (self, h)
  = (Ok (Some all_failed_message, false),
     (update_memory (Some input_message) user self, h)).
Proof.
  intros Ha. rewrite get_response_run. cbv zeta. rewrite Ha. cbn [gather].
  rewrite run_ret.
  exact (respond_run input_message (gathered [])
           (update_memory (Some input_message) user self) h).
Qed.

End TurnCases.

(** ** The memories, operation by operation *)
Section MemoryCases.
Context `{External}.

Lemma lstrip_cases (s : string) :
  (all_space s = true ∧ Py.lstrip s = "") ∨
  (all_space s = false ∧
   ∃ c r, Py.lstrip s = String c r ∧ Py.isspace c = false).
Proof.
  induction s as [|a s IH]; [by left|]. cbn.
  destruct (Py.isspace a) eqn:Ha; [done|]. right. split; [done|by eexists _, _].
Qed.

(** A text strips to the empty text exactly when it is all white space. *)
Lemma strip_blank (s : string) : Py.truthy (Py.strip s) = negb (all_space s).
Proof.
  unfold Py.strip.
  destruct (lstrip_cases s) as [[-> ->]|[-> (c & r & -> & Hc)]]; [done|].
  pose proof (rstrip_nonempty c r Hc). cbn [negb].
  by destruct (Py.rstrip (String c r)).
Qed.

(** X13. [add_to_archival_memory] refuses a content that is empty or all
    white space and leaves the orchestrator as it is; every other content
    becomes the last chunk of the index, untrimmed, and the counter goes up
    by one. *)
Theorem add_to_archival_memory_cases (content : string)
    (self : OllamaMixtureOfAgents) :
  (all_space content = true →
   add_to_archival_memory content self
   = ("Failed to add empty content to archival memory.", self)) ∧
  (all_space content = false →
   let self' := (add_to_archival_memory content self).2 in
   (add_to_archival_memory content self).1
     = "Added to archival memory: " +:+ content ∧
   rag self' = rag self ++ [Some content] ∧
   document_count self' = document_count self + 1 ∧
   agent_event_memory self' = agent_event_memory self ∧
   core_memory self' = core_memory self).
Proof.
  unfold add_to_archival_memory. rewrite strip_blank.
  split; intros ->; done.
Qed.



(** X15. A file whose extension is none of [txt], [pdf] and [csv] is not
    opened: the status names the extension, and the orchestrator and the
    history stay as they are. *)
Theorem unsupported_extension_opens_nothing (file_path : string)
    (self : OllamaMixtureOfAgents) (h : list Call) :
  file_extension_of file_path ≠ "txt" →
  file_extension_of file_path ≠ "pdf" →
  file_extension_of file_path ≠ "csv" →
  upload_document file_path (self, h)
  = (Ok ("Unsupported file type: " +:+ file_extension_of file_path), (self, h)).
Proof.
  intros Ht Hp Hc. unfold upload_document, upload_read.
  apply String.eqb_neq in Ht, Hp, Hc. by rewrite Ht, Hp, Hc.
Qed.

Lemma split_char_cons (c : ascii) (s : string) :
  ∃ x l, Py.split_char c s = x :: l.
Proof.
  induction s as [|a s (x & l & IH)]; [by eexists _, _|].
  cbn. rewrite IH. destruct (Ascii.eqb a c); by eexists _, _.
Qed.

Lemma split_char_absent (c : ascii) (s : string) :
  has_char c s = false → Py.split_char c s = [s].
Proof.
  induction s as [|a s IH]; [done|]. cbn.
  intros [-> Hs]%orb_false_iff. by rewrite (IH Hs).
Qed.

Lemma split_char_after (c : ascii) (stem rest : string) :
  ∃ x l, Py.split_char c (stem +:+ String c rest)
         = (x :: l) ++ Py.split_char c rest.
Proof.
  induction stem as [|a stem (x & l & IH)].
  - exists "", []. change ("" +:+ String c rest) with (String c rest).
    cbn [Py.split_char]. by rewrite Ascii.eqb_refl.
  - rewrite append_cons. cbn [Py.split_char]. rewrite IH.
    destruct (Ascii.eqb a c); [by exists "", (x :: l)|by exists (String a x), l].
Qed.

Lemma last_app_cons {A} (l1 l2 : list A) (x d : A) :
  List.last (l1 ++ x :: l2) d = List.last (x :: l2) d.
Proof.
  induction l1 as [|a l1 IH]; [done|].
  cbn [app]. rewrite <- IH. by destruct l1.
Qed.

(** X16. The extension of a path is what follows its last dot, in lower
    case, so that [.TXT] is read as text; a path without a dot is its own
    extension, so that a file named [txt], [pdf] or [csv] in any case is
    read as one. *)
Theorem file_extension_last_dot (stem extension : string) :
  has_char "." extension = false →
  file_extension_of (stem +:+ String "." extension) = Py.lower extension ∧
  file_extension_of extension = Py.lower extension.
Proof.
  intros He. unfold file_extension_of. split.
  - destruct (split_char_after "." stem extension) as (x & l & ->).
    rewrite (split_char_absent _ _ He). by rewrite last_app_cons.
  - by rewrite (split_char_absent _ _ He).
Qed.

(** X17. The core memory after an edit, whether the section was there or
    not: the section holds what it held with the key set to the value, and
    the other sections are as before. So the key reads back the value, the
    last of two writes to a key wins, and writes to different keys of a
    section commute. *)
Theorem edit_core_memory_document (section key value : string)
    (self : OllamaMixtureOfAgents) :
  let after s k v o := core_memory (edit_core_memory s k v o).2 in
  after section key value self
  = <[section := <[key := value]> (default ∅ (core_memory self !! section))]>
      (core_memory self) ∧
  (after section key value self !! section ≫= (.!! key)) = Some value ∧
  (∀ value', after section key value
               (edit_core_memory section key value' self).2
             = after section key value self) ∧
  (∀ key' value', key ≠ key' →
     after section key value (edit_core_memory section key' value' self).2
     = after section key' value' (edit_core_memory section key value self).2).
Proof.
  cbv zeta.
  assert (Hdoc : ∀ s k v o,
            core_memory (edit_core_memory s k v o).2
            = <[s := <[k := v]> (default ∅ (core_memory o !! s))]>
                (core_memory o)).
  { intros s k v o. unfold edit_core_memory. cbn.
    apply map_eq. intros i. rewrite lookup_alter, lookup_insert.
    destruct (decide (s = i)) as [<-|Hne].
    - destruct (core_memory o !! s) as [inner|] eqn:Hs.
      + rewrite decide_False by done. by rewrite Hs.
      + rewrite decide_True by done. by rewrite lookup_insert_eq.
    - case_decide; [by rewrite lookup_insert_ne|done]. }
  split; [apply Hdoc|]. split; [|split].
  - rewrite Hdoc, lookup_insert_eq. cbn. apply lookup_insert_eq.
  - intros value'. rewrite !Hdoc, lookup_insert_eq. cbn.
    by rewrite insert_insert_eq, insert_insert_eq.
  - intros key' value' Hk. rewrite !Hdoc, !lookup_insert_eq. cbn.
    rewrite !insert_insert_eq. f_equal. by apply insert_insert_ne.
Qed.

(** X18. While a clearing of the index that raises removes nothing, every
    orchestrator that a construction followed by turns, archival commands,
    clearings that succeed or fail, uploads, core memory commands and
    switches of the web search can give has a counter between 0 and the
    number of chunks in the index. *)
Theorem reachable_counter_bounds (self : OllamaMixtureOfAgents) :
  (∀ chunks e kept,
     clear_documents_raises chunks = Some (e, kept) → kept = chunks) →
  reachable self →
  0 ≤ document_count self ≤ Z.of_nat (length (rag self)).
Proof.
  intros Hatomic.
  induction 1 as [| self input_message h _ IH | self query h _ IH
                  | self content _ IH | self _ IH | self old new _ IH
                  | self file_path h _ IH | self section key value _ IH
                  | self _ IH | self enabled _ IH].
  - done.
  - destruct (get_response_self input_message self h) as [->|[fr ->]];
      cbn; rewrite ?length_app; cbn; lia.
  - done.
  - unfold add_to_archival_memory. destruct (Py.truthy _); [|done].
    cbn. rewrite length_app. cbn. lia.
  - unfold clear_archival_memory, clear_documents.
    destruct (clear_documents_raises (rag self)) as [[e kept]|] eqn:Hc; [|done].
    apply Hatomic in Hc as ->. done.
  - cbn. rewrite length_app. cbn. lia.
  - unfold upload_document.
    destruct (upload_read file_path h) as [[[ext|content]|e] h']; try done.
    destruct (negb _); [done|]. cbn [fst snd].
    destruct (add_splits_counts (split_text content) self) as [-> ->]. lia.
  - done.
  - done.
  - done.
Qed.

End MemoryCases.

(** ** The shell, command by command *)
Section ShellCases.
Context `{External} `{Console}.

Lemma lower_app (a b : string) : Py.lower (a +:+ b) = Py.lower a +:+ Py.lower b.
Proof.
  induction a as [|c a IH]; [done|]. rewrite append_cons. cbn [Py.lower].
  by rewrite IH, append_cons.
Qed.

Lemma split_max_zero (c : ascii) (s : string) : split_max c 0 s = [s].
Proof. by destruct s. Qed.

Lemma split_max_absent (c : ascii) (n : nat) (s : string) :
  has_char c s = false → split_max c n s = [s].
Proof.
  induction s as [|a s IH]; [done|]. cbn.
  intros [-> Hs]%orb_false_iff. destruct n; [done|]. by rewrite (IH Hs).
Qed.

Lemma split_max_word (c : ascii) (n : nat) (word rest : string) :
  has_char c word = false →
  split_max c (S n) (word +:+ String c rest) = word :: split_max c n rest.
Proof.
  induction word as [|a word IH].
  - intros _. change ("" +:+ String c rest) with (String c rest).
    cbn [split_max]. by rewrite Ascii.eqb_refl.
  - cbn [has_char]. intros [Ha Hw]%orb_false_iff.
    rewrite append_cons. cbn [split_max]. by rewrite Ha, (IH Hw).
Qed.

Lemma edit_core_memory_insert (section key value : string)
    (self : OllamaMixtureOfAgents) :
  core_memory (edit_core_memory section key value self).2
  = <[section := <[key := value]> (default ∅ (core_memory self !! section))]>
      (core_memory self).
Proof.
  unfold edit_core_memory. cbn.
  apply map_eq. intros i. rewrite lookup_alter, lookup_insert.
  destruct (decide (section = i)) as [<-|Hne].
  - destruct (core_memory self !! section) as [inner|] eqn:Hs.
    + rewrite decide_False by done. by rewrite Hs.
    + rewrite decide_True by done. by rewrite lookup_insert_eq.
  - case_decide; [by rewrite lookup_insert_ne|done].
Qed.

(** X19. The command in the form the welcome message gives,
    [edit core section key value], does not edit the section it names: the
    four parts of the line are [edit], [core], the section and the rest, so
    the edit goes to the section [core], with the named section as the key
    and the key and the value together as the value. *)
Theorem edit_core_command_edits_core (raw section key value : string)
    (sh : Shell) (h : list Call) :
  Py.strip raw
  = "edit core " +:+ section +:+ " " +:+ key +:+ " " +:+ value →
  has_char " " section = false →
  ∃ sh',
    main_step raw (sh, h) = (Ok Continue, (sh', h)) ∧
    mixture sh'
    = (edit_core_memory "core" section (key +:+ " " +:+ value) (mixture sh)).2 ∧
    (core_memory (mixture sh') !! "core" ≫= (.!! section))
    = Some (key +:+ " " +:+ value) ∧
    (section ≠ "core" →
     core_memory (mixture sh') !! section = core_memory (mixture sh) !! section).
Proof.
  intros Hs Hsec. unfold main_step. rewrite Hs.
  change ("edit core " +:+ ?x) with ("edit core" +:+ (" " +:+ x)).
  rewrite lower_app.
  change (Py.lower "edit core") with "edit core".
  unfold Py.startswith. rewrite prefix_app.
  change (String.eqb ("edit core" +:+ ?x) "exit") with false.
  change (String.eqb ("edit core" +:+ ?x) "agents") with false.
  change (String.eqb ("edit core" +:+ ?x) "time") with false.
  change (String.eqb ("edit core" +:+ ?x) "web") with false.
  cbv beta iota zeta.
  change ("edit core" +:+ " " +:+ section +:+ " " +:+ key +:+ " " +:+ value)
    with ("edit" +:+ String " " ("core" +:+ String " "
            (section +:+ String " " (key +:+ " " +:+ value)))).
  rewrite (split_max_word " " 2 "edit") by done.
  rewrite (split_max_word " " 1 "core") by done.
  rewrite (split_max_word " " 0 section) by done.
  rewrite split_max_zero. cbn [unpack4].
  destruct (edit_core_memory "core" section (key +:+ " " +:+ value) (mixture sh))
    as [msg m] eqn:He.
  eexists. split; [done|]. cbn [mixture say with_mixture].
  assert (Hm : m = (edit_core_memory "core" section (key +:+ " " +:+ value)
                      (mixture sh)).2) by (by rewrite He).
  split; [done|]. rewrite Hm, edit_core_memory_insert. split.
  - rewrite lookup_insert_eq. cbn. apply lookup_insert_eq.
  - intros Hne. by rewrite lookup_insert_ne.
Qed.

(** X20. The command [add archival] keeps its second word: the chunk that
    goes into the index is the line from [archival] on. So the shell never
    hands [add_to_archival_memory] an empty content: the bare command stores
    the chunk [archival]. *)
Theorem add_archival_command_keeps_keyword (raw rest : string)
    (sh : Shell) (h : list Call) :
  Py.strip raw = "add archival" +:+ rest →
  ∃ sh',
    main_step raw (sh, h) = (Ok Continue, (sh', h)) ∧
    rag (mixture sh') = rag (mixture sh) ++ [Some ("archival" +:+ rest)] ∧
    document_count (mixture sh') = document_count (mixture sh) + 1 ∧
    stdout sh'
    = stdout sh ++
      [Print (Colorama.YELLOW +:+ "Added to archival memory: archival" +:+ rest)].
Proof.
  intros Hs. unfold main_step. rewrite Hs, lower_app.
  change (Py.lower "add archival") with "add archival".
  unfold Py.startswith. rewrite (prefix_app "add archival").
  change (String.eqb ("add archival" +:+ ?x) "exit") with false.
  change (String.eqb ("add archival" +:+ ?x) "agents") with false.
  change (String.eqb ("add archival" +:+ ?x) "time") with false.
  change (String.eqb ("add archival" +:+ ?x) "web") with false.
  change (String.prefix "edit core" ("add archival" +:+ ?x)) with false.
  change (String.prefix "search archival" ("add archival" +:+ ?x)) with false.
  cbv beta iota zeta.
  change ("add archival" +:+ rest) with ("add" +:+ String " " ("archival" +:+ rest)).
  rewrite (split_max_word " " 0 "add") by done.
  rewrite split_max_zero. cbn [unpack2].
  unfold add_to_archival_memory.
  assert (Ht : Py.truthy (Py.strip ("archival" +:+ rest)) = true)
    by exact (strip_nonempty "a" ("rchival" +:+ rest) eq_refl).
  rewrite Ht. cbv beta iota zeta. by eexists.
Qed.

(** X21. The command [search archival] keeps its second word too: the
    query that goes to the index is the line from [archival] on, for five
    chunks, and the orchestrator stays as it is. *)
Theorem search_archival_command_keeps_keyword (raw rest : string)
    (sh : Shell) (h : list Call) :
  Py.strip raw = "search archival" +:+ rest →
  ∃ sh',
    main_step raw (sh, h)
    = (Ok Continue, (sh', h ++ [CallRetrieve ("archival" +:+ rest) 5])) ∧
    mixture sh' = mixture sh.
Proof.
  intros Hs. unfold main_step. rewrite Hs, lower_app.
  change (Py.lower "search archival") with "search archival".
  unfold Py.startswith. rewrite (prefix_app "search archival").
  change (String.eqb ("search archival" +:+ ?x) "exit") with false.
  change (String.eqb ("search archival" +:+ ?x) "agents") with false.
  change (String.eqb ("search archival" +:+ ?x) "time") with false.
  change (String.eqb ("search archival" +:+ ?x) "web") with false.
  change (String.prefix "edit core" ("search archival" +:+ ?x)) with false.
  cbv beta iota zeta. unfold search_archival_command.
  change ("search archival" +:+ rest)
    with ("search" +:+ String " " ("archival" +:+ rest)).
  rewrite (split_max_word " " 0 "search") by done.
  rewrite split_max_zero. cbn [unpack2].
  unfold search_archival_memory. rewrite run_bind. cbn [get_self].
  rewrite run_lift. unfold do_retrieve. cbn [fst snd].
  assert (Hsay : ∀ lines sh0,
            mixture (foldl (λ sh line, say line sh) sh0 lines) = mixture sh0).
  { induction lines as [|line lines IH]; intros sh0; [done|].
    cbn [foldl]. by rewrite IH. }
  eexists. split; [done|]. by rewrite Hsay.
Qed.

(** X22. The command [edit archival old new] takes [archival] for the old
    content and everything after it for the new one: the chunk that goes
    into the index is the old and the new text together. *)
Theorem edit_archival_command_joins_texts (raw rest : string)
    (sh : Shell) (h : list Call) :
  Py.strip raw = "edit archival " +:+ rest →
  ∃ sh',
    main_step raw (sh, h) = (Ok Continue, (sh', h)) ∧
    mixture sh' = (edit_archival_memory "archival" rest (mixture sh)).2 ∧
    rag (mixture sh') = rag (mixture sh) ++ [Some rest].
Proof.
  intros Hs. unfold main_step. rewrite Hs.
  change ("edit archival " +:+ rest) with ("edit archival" +:+ (" " +:+ rest)).
  rewrite lower_app.
  change (Py.lower "edit archival") with "edit archival".
  unfold Py.startswith. rewrite (prefix_app "edit archival").
  change (String.eqb ("edit archival" +:+ ?x) "exit") with false.
  change (String.eqb ("edit archival" +:+ ?x) "agents") with false.
  change (String.eqb ("edit archival" +:+ ?x) "time") with false.
  change (String.eqb ("edit archival" +:+ ?x) "web") with false.
  change (String.prefix "edit core" ("edit archival" +:+ ?x)) with false.
  change (String.prefix "search archival" ("edit archival" +:+ ?x)) with false.
  change (String.prefix "add archival" ("edit archival" +:+ ?x)) with false.
  change (String.eqb ("edit archival" +:+ ?x) "clear archival") with false.
  cbv beta iota zeta.
  change ("edit archival" +:+ " " +:+ rest)
    with ("edit" +:+ String " " ("archival" +:+ String " " rest)).
  rewrite (split_max_word " " 1 "edit") by done.
  rewrite (split_max_word " " 0 "archival") by done.
  rewrite split_max_zero. cbn [unpack3]. by eexists.
Qed.

(** X23. A line that begins with [upload] and has no blank in it, the bare
    command among them, is split into one part where two are unpacked: the
    [ValueError] is raised outside every handler and ends the loop of
    [main], with nothing changed and the lines after it unread. *)
Theorem upload_without_path_raises (raw : string) (lines : list string)
    (sh : Shell) (h : list Call) :
  Py.startswith (Py.lower (Py.strip raw)) "upload" = true →
  has_char " " (Py.strip raw) = false →
  main_step raw (sh, h) = (Raise (unpack_error 2 1), (sh, h)) ∧
  ∃ sh',
    main_loop (raw :: lines) (sh, h) = (Raise (unpack_error 2 1), (sh', h)) ∧
    mixture sh' = mixture sh.
Proof.
  intros Hp Hc.
  assert (Hstep : ∀ sh0,
            main_step raw (sh0, h) = (Raise (unpack_error 2 1), (sh0, h))).
  { intros sh0. unfold main_step. unfold Py.startswith in *.
    rewrite (split_max_absent " " 1 _ Hc).
    destruct (Py.strip raw) as [|c u]; [done|].
    cbn [Py.lower] in *. pose proof Hp as Hu. cbn [String.prefix] in Hu.
    destruct (ascii_dec "u" (Py.lower_char c)) as [Hl|]; [|done].
    rewrite <- Hl in *. rewrite Hp.
    change (String.eqb (String "u" ?x) "exit") with false.
    change (String.eqb (String "u" ?x) "agents") with false.
    change (String.eqb (String "u" ?x) "time") with false.
    change (String.eqb (String "u" ?x) "web") with false.
    change (String.prefix "edit core" (String "u" ?x)) with false.
    change (String.prefix "search archival" (String "u" ?x)) with false.
    change (String.prefix "add archival" (String "u" ?x)) with false.
    change (String.eqb (String "u" ?x) "clear archival") with false.
    change (String.prefix "edit archival" (String "u" ?x)) with false.
    done. }
  split; [apply Hstep|]. cbn [main_loop]. rewrite Hstep. by eexists.
Qed.

End ShellCases.

(** ** More runs in the scripted worlds *)
Section MoreRuns.
Import Scenario Worlds.

(** The analyst answers plain text. *)
Lemma generate_response_without_marker_witness :
  generate_with_references [] (model (agent "analyst"))
    (first_messages (agent "analyst") "hi") None
    = Some "Solar flares are eruptions on the sun." ∧
  Py.contains search_trigger "Solar flares are eruptions on the sun." = false ∧
  generate_response (agent "analyst") "hi" []
  = (Ok ("Solar flares are eruptions on the sun.", false),
     [CallComplete "analyst" (first_messages (agent "analyst") "hi") None]).
Proof.
  split; [reflexivity|]. split; [reflexivity|].
  exact (generate_response_without_marker (agent "analyst") "hi" []
           "Solar flares are eruptions on the sun." eq_refl eq_refl).
Defined.

(** The completion function of the mute world answers [None]. *)
Lemma generate_response_not_a_string_witness :
  generate_with_references (External := mute) [] (model (agent "analyst"))
    (first_messages (agent "analyst") "hi") None = None ∧
  ∃ e,
    generate_response (H := mute) (agent "analyst") "hi" []
    = (Raise e,
       [] ++ [CallComplete (model (agent "analyst"))
                (first_messages (agent "analyst") "hi") None]) ∧
    exn_kind e = TypeError.
Proof.
  split; [reflexivity|].
  exact (generate_response_not_a_string (H := mute) (agent "analyst") "hi" []
           eq_refl).
Defined.

Lemma unbound_config_never_fetches_witness :
  use_config = use_config_unbound ∧
  get_website_content_from_url "https://example.org/a" []
  = (Ok ("An error occurred while processing " +:+ "https://example.org/a" +:+
         ": name 'use_config' is not defined"), []) ∧
  (search_web "solar flares" []).2 = [] ++ [CallSearch "solar flares"].
Proof.
  split; [reflexivity|].
  exact (unbound_config_never_fetches "https://example.org/a" "solar flares" []
           eq_refl).
Defined.

(** The page that cannot be fetched, in the world that binds [use_config]. *)
Lemma website_failure_notices_witness :
  use_config (External := bound) = Ok () ∧
  fetch_url (External := bound) [] "https://example.org/down" = Ok None ∧
  get_website_content_from_url (H := bound) "https://example.org/down" []
  = (Ok ("Failed to fetch content from " +:+ "https://example.org/down"),
     [] ++ [CallFetch "https://example.org/down"]).
Proof.
  split; [reflexivity|]. split; [reflexivity|].
  exact (proj1 (website_failure_notices (H := bound)
                  "https://example.org/down" [] eq_refl) eq_refl).
Defined.

(** The page with a title and a text. *)
Lemma website_block_defaults_witness :
  let url := "https://example.org/a" in
  let items := [("title", JString "Flares"); ("text", JString "Eruptions.")] in
  use_config (External := bound) = Ok () ∧
  fetch_url (External := bound) [] url = Ok (Some url) ∧
  extract (External := bound) ([] ++ [CallFetch url]) url url = Ok (Some "page") ∧
  json_loads (External := bound) "page" = Ok (JObject items) ∧
  (get_website_content_from_url (H := bound) url []).1
  = Ok (website_block "Flares" url "Eruptions.").
Proof.
  cbv zeta. do 4 (split; [reflexivity|]).
  refine (proj1 (proj2 (website_block_defaults (H := bound)
                          "https://example.org/a" [] "https://example.org/a"
                          "page" _ eq_refl eq_refl eq_refl _ eq_refl))
            "Eruptions." eq_refl _); done.
Defined.

(** The list of two queries, and the list with a bare string. *)
Lemma validation_all_or_nothing_witness :
  let item q := JObject [("query", JString q); ("type", JString "related")] in
  json_loads (External := parsing) "good"
    = Ok (JArray [item "sunspots"; item "aurora"]) ∧
  parse_query_extension (H := parsing) "good"
    = {| queries := [{| query := "sunspots"; type := "related" |};
                     {| query := "aurora"; type := "related" |}] |} ∧
  parse_query_extension (H := parsing) "mixed" = {| queries := [] |}.
Proof.
  cbv zeta. split; [reflexivity|]. split.
  - refine (proj1 (proj1 (validation_all_or_nothing (H := parsing) "good" _
                            eq_refl) _ _)).
    by repeat constructor.
  - refine (proj2 (validation_all_or_nothing (H := parsing) "mixed" _ eq_refl) _).
    apply Exists_cons_tl, Exists_cons_hd. done.
Defined.

(** The turn of the analyst team: no agent searches, and the search on the
    raw input brings the marker. *)
Lemma turn_flag_witness :
  let out := get_response "hi" (analyst_team, []) in
  let h1 := (gather (reference_agents analyst_team) "hi" []).2 in
  gather (reference_agents analyst_team) "hi" [] = (Ok analyst_results, h1) ∧
  (fan_in (gathered analyst_results)).1 ≠ [] ∧
  out = (Ok (Some "Final answer.", true), out.2) ∧
  ∃ search_results,
    (search_web "hi" h1).1 = Ok search_results ∧
    true = existsb snd analyst_results
           || (web_search_enabled analyst_team
               && Py.contains success_marker search_results).
Proof.
  cbv zeta.
  assert (Hg : gather (reference_agents analyst_team) "hi" []
               = (Ok analyst_results,
                  (gather (reference_agents analyst_team) "hi" []).2))
    by (by vm_compute).
  assert (Href : (fan_in (gathered analyst_results)).1 ≠ []) by done.
  assert (Hout : get_response "hi" (analyst_team, [])
                 = (Ok (Some "Final answer.", true),
                    (get_response "hi" (analyst_team, [])).2))
    by (by vm_compute).
  split; [exact Hg|]. split; [exact Href|]. split; [exact Hout|].
  exact (turn_flag "hi" analyst_team [] _ analyst_results _ _ _ Hg Href Hout).
Defined.

Lemma turn_commits_both_memories_witness :
  let out := get_response "hi" (analyst_team, []) in
  let h1 := (gather (reference_agents analyst_team) "hi" []).2 in
  gather (reference_agents analyst_team) "hi" [] = (Ok analyst_results, h1) ∧
  (fan_in (gathered analyst_results)).1 ≠ [] ∧
  out = (Ok (Some "Final answer.", true), (out.2.1, out.2.2)) ∧
  rag out.2.1 = rag analyst_team ++ [Some "hi"; Some "Final answer."] ∧
  agent_event_memory out.2.1
  = agent_event_memory analyst_team ++
    [(user, Some "hi"); (assistant, Some "Final answer.")].
Proof.
  cbv zeta.
  assert (Hg : gather (reference_agents analyst_team) "hi" []
               = (Ok analyst_results,
                  (gather (reference_agents analyst_team) "hi" []).2))
    by (by vm_compute).
  assert (Href : (fan_in (gathered analyst_results)).1 ≠ []) by done.
  assert (Hout : get_response "hi" (analyst_team, [])
                 = (Ok (Some "Final answer.", true),
                    ((get_response "hi" (analyst_team, [])).2.1,
                     (get_response "hi" (analyst_team, [])).2.2)))
    by (by vm_compute).
  split; [exact Hg|]. split; [exact Href|]. split; [exact Hout|].
  exact (turn_commits_both_memories "hi" analyst_team [] _ analyst_results
           _ _ _ _ Hg Href Hout).
Defined.

Lemma pipeline_k_within_index_witness :
  document_count analyst_team ≤ Z.of_nat (length (rag analyst_team)) ∧
  extends (λ c, match c with
                | CallRetrieve _ k =>
                    1 ≤ k ≤ Z.of_nat (length (rag analyst_team ++ [Some "hi"]))
                | _ => True
                end)
          [] (get_response "hi" (analyst_team, [])).2.2.
Proof.
  split; [done|].
  apply (pipeline_k_within_index "hi" analyst_team []). done.
Defined.

(** An extension that asks for the input message again. *)
Lemma repeated_query_adds_nothing_witness :
  let extension := {| queries := [{| query := "hi"; type := "same" |}] |} in
  let self := update_memory (Some "hi") user analyst_team in
  Forall (λ query_item, query query_item = "hi") (queries extension) ∧
  (retrieve_context self "hi" extension []).1
  = (retrieve_context self "hi" {| queries := [] |} []).1 ∧
  (retrieve_context self "hi" extension []).2
  = [] ++ CallRetrieve "hi" (retrieval_k self) ::
          replicate (length (queries extension))
            (CallRetrieve "hi" (retrieval_k self)).
Proof.
  cbv zeta.
  assert (Hq : Forall (λ query_item, query query_item = "hi")
                 [{| query := "hi"; type := "same" |}])
    by (by repeat constructor).
  split; [exact Hq|].
  exact (repeated_query_adds_nothing (update_memory (Some "hi") user analyst_team)
           "hi" {| queries := [{| query := "hi"; type := "same" |}] |} [] Hq).
Defined.

Lemma unsupported_extension_opens_nothing_witness :
  file_extension_of "notes.docx" = "docx" ∧
  upload_document "notes.docx" (analyst_team, [])
  = (Ok ("Unsupported file type: " +:+ file_extension_of "notes.docx"),
     (analyst_team, [])).
Proof.
  split; [reflexivity|].
  by apply (unsupported_extension_opens_nothing "notes.docx" analyst_team []).
Defined.

Lemma file_extension_last_dot_witness :
  has_char "." "TXT" = false ∧
  file_extension_of ("my.notes" +:+ String "." "TXT") = Py.lower "TXT" ∧
  file_extension_of "TXT" = Py.lower "TXT".
Proof.
  split; [reflexivity|].
  exact (file_extension_last_dot "my.notes" "TXT" eq_refl).
Defined.

(** A new orchestrator after a turn, an added chunk and a clearing that
    raises: the index holds its three chunks and the counter is 1. *)
Lemma reachable_counter_bounds_witness :
  let fresh := new_orchestrator [agent "analyst"] (agent "synth")
                 0.5%float 1000 1 None in
  let self := (clear_archival_memory (H := unclearable)
                 (add_to_archival_memory "a note"
                    (get_response (H := unclearable) "hi" (fresh, [])).2.1).2).2 in
  (∀ chunks e kept,
     clear_documents_raises (External := unclearable) chunks = Some (e, kept) →
     kept = chunks) ∧
  reachable (H := unclearable) self ∧
  document_count self = 1 ∧
  length (rag self) = 3%nat ∧
  0 ≤ document_count self ≤ Z.of_nat (length (rag self)).
Proof.
  cbv zeta.
  assert (Hatomic : ∀ chunks e kept,
            clear_documents_raises (External := unclearable) chunks
            = Some (e, kept) → kept = chunks).
  { intros chunks e kept Hc. by injection Hc as _ <-. }
  assert (Hr : reachable (H := unclearable)
                 (clear_archival_memory (H := unclearable)
                    (add_to_archival_memory "a note"
                       (get_response (H := unclearable) "hi"
                          (new_orchestrator [agent "analyst"] (agent "synth")
                             0.5%float 1000 1 None, [])).2.1).2).2)
    by (apply reach_clear, reach_add, reach_turn, reach_new).
  split; [exact Hatomic|]. split; [exact Hr|].
  split; [by vm_compute|]. split; [by vm_compute|].
  exact (reachable_counter_bounds (H := unclearable) _ Hatomic Hr).
Defined.

Lemma edit_core_command_edits_core_witness :
  let sh := shell (orchestrator []) in
  Py.strip "edit core persona tone formal"
  = "edit core " +:+ "persona" +:+ " " +:+ "tone" +:+ " " +:+ "formal" ∧
  has_char " " "persona" = false ∧
  ∃ sh',
    main_step "edit core persona tone formal" (sh, []) = (Ok Continue, (sh', [])) ∧
    mixture sh'
    = (edit_core_memory "core" "persona" ("tone" +:+ " " +:+ "formal")
         (mixture sh)).2 ∧
    (core_memory (mixture sh') !! "core" ≫= (.!! "persona"))
    = Some ("tone" +:+ " " +:+ "formal") ∧
    ("persona" ≠ "core" →
     core_memory (mixture sh') !! "persona"
     = core_memory (mixture sh) !! "persona").
Proof.
  cbv zeta. split; [reflexivity|]. split; [reflexivity|].
  exact (edit_core_command_edits_core "edit core persona tone formal"
           "persona" "tone" "formal" (shell (orchestrator [])) []
           eq_refl eq_refl).
Defined.

(** The bare command [add archival]. *)
Lemma add_archival_command_keeps_keyword_witness :
  let sh := shell (orchestrator []) in
  Py.strip "add archival" = "add archival" +:+ "" ∧
  ∃ sh',
    main_step "add archival" (sh, []) = (Ok Continue, (sh', [])) ∧
    rag (mixture sh') = rag (mixture sh) ++ [Some ("archival" +:+ "")] ∧
    document_count (mixture sh') = document_count (mixture sh) + 1 ∧
    stdout sh'
    = stdout sh ++
      [Print (Colorama.YELLOW +:+ "Added to archival memory: archival" +:+ "")].
Proof.
  cbv zeta. split; [reflexivity|].
  exact (add_archival_command_keeps_keyword "add archival" ""
           (shell (orchestrator [])) [] eq_refl).
Defined.

Lemma search_archival_command_keeps_keyword_witness :
  let sh := shell (orchestrator []) in
  Py.strip "search archival solar flares"
  = "search archival" +:+ " solar flares" ∧
  ∃ sh',
    main_step "search archival solar flares" (sh, [])
    = (Ok Continue,
       (sh', [] ++ [CallRetrieve ("archival" +:+ " solar flares") 5])) ∧
    mixture sh' = mixture sh.
Proof.
  cbv zeta. split; [reflexivity|].
  exact (search_archival_command_keeps_keyword "search archival solar flares"
           " solar flares" (shell (orchestrator [])) [] eq_refl).
Defined.

Lemma edit_archival_command_joins_texts_witness :
  let sh := shell (orchestrator []) in
  Py.strip "edit archival old new" = "edit archival " +:+ "old new" ∧
  ∃ sh',
    main_step "edit archival old new" (sh, []) = (Ok Continue, (sh', [])) ∧
    mixture sh' = (edit_archival_memory "archival" "old new" (mixture sh)).2 ∧
    rag (mixture sh') = rag (mixture sh) ++ [Some "old new"].
Proof.
  cbv zeta. split; [reflexivity|].
  exact (edit_archival_command_joins_texts "edit archival old new" "old new"
           (shell (orchestrator [])) [] eq_refl).
Defined.

(** The bare command [upload], with a line after it. *)
Lemma upload_without_path_raises_witness :
  let sh := shell (orchestrator []) in
  Py.startswith (Py.lower (Py.strip " Upload ")) "upload" = true ∧
  has_char " " (Py.strip " Upload ") = false ∧
  main_step " Upload " (sh, []) = (Raise (unpack_error 2 1), (sh, [])) ∧
  ∃ sh',
    main_loop [" Upload "; "exit"] (sh, [])
    = (Raise (unpack_error 2 1), (sh', [])) ∧
    mixture sh' = mixture sh.
Proof.
  cbv zeta. split; [reflexivity|]. split; [reflexivity|].
  exact (upload_without_path_raises " Upload " ["exit"]
           (shell (orchestrator [])) [] eq_refl eq_refl).
Defined.

Lemma empty_team_aborts_witness :
  reference_agents (orchestrator []) = [] ∧
  get_response "hi" (orchestrator [], [])
  = (Ok (Some all_failed_message, false),
     (update_memory (Some "hi") user (orchestrator []), [])).
Proof.
  split; [reflexivity|].
  exact (empty_team_aborts "hi" (orchestrator []) [] eq_refl).
Defined.

End MoreRuns.
